(** * A command-line calculator with plugin operations and a pandas history

    Shallow embedding of the calculator of [main.py] and the package
    [calculator/] (commands, [Calculation], [Calculations], [PandasFacade]),
    together with models of the three libraries the program computes with:
    Python's [decimal] module under its default context, binary64 numbers as
    pandas reads and writes them, and the part of [pandas] the facade calls.

    Conventions.  Python exceptions are values of [Exn]; a call that may raise
    returns an [outcome].  A text is a sequence of code points below 256 (the
    eight-bit characters of [string]); Python texts with other code points
    are outside the model.  Logging calls are left out: they write
    to the log only and never change a value the program uses. *)

From Stdlib Require Import ZArith NArith String Ascii Bool Lia DecimalString SpecFloat.
From Stdlib Require Import DecimalFacts DecimalPos DecimalN.
From stdpp Require Import gmap strings list.

Local Open Scope string_scope.
Local Open Scope Z_scope.

(** ** Exceptions and fallible computations *)

(** The exception classes the modelled code can raise.  [InvalidOperation]
    carries the text [str(e)] shows (the list of signalled conditions). *)
Inductive Exn : Type :=
| InvalidOperation (detail : string)
| Overflow
| DivisionByZero
| FileNotFoundError (path : string)
| EmptyDataError
| KeyError (key : string)
| OSError (message : string).

Inductive outcome (A : Type) : Type :=
| Ok (a : A)
| Raise (e : Exn).
Arguments Ok {A} a.
Arguments Raise {A} e.

Definition bind {A B : Type} (r : outcome A) (k : A -> outcome B) : outcome B :=
  match r with
  | Ok a => k a
  | Raise e => Raise e
  end.

Notation "'let*' x ':=' r 'in' k" := (bind r (fun x => k))
  (at level 10, x name, r at level 100, k at level 200).

(** [isinstance(e, InvalidOperation)]: what [except InvalidOperation] catches. *)
Definition is_InvalidOperation (e : Exn) : bool :=
  match e with
  | InvalidOperation _ => true
  | _ => false
  end.

(** [str(e)], as the f-string of the last handler of
    [calculate_and_display_result] prints it. *)
Definition exn_str (e : Exn) : string :=
  match e with
  | InvalidOperation detail => detail
  | Overflow => "[<class 'decimal.Overflow'>]"
  | DivisionByZero => "[<class 'decimal.DivisionByZero'>]"
  | FileNotFoundError path =>
      "[Errno 2] No such file or directory: '" +:+ path +:+ "'"
  | EmptyDataError => "No columns to parse from file"
  | KeyError key => "'" +:+ key +:+ "'"
  | OSError message => message
  end.

(** ** Text helpers *)

Definition is_digit (c : ascii) : bool :=
  (48 <=? nat_of_ascii c)%nat && (nat_of_ascii c <=? 57)%nat.

Definition digit_value (c : ascii) : N := N.of_nat (nat_of_ascii c - 48).

(** The value of a run of decimal digits, most significant first. *)
Definition digits_to_N (ds : list ascii) : N :=
  fold_left (fun acc c => (10 * acc + digit_value c)%N) ds 0%N.

(** [str(n)] for a natural number. *)
Definition string_of_N (n : N) : string := NilEmpty.string_of_uint (N.to_uint n).

(** [str(z)] for a Python [int]. *)
Definition string_of_Z (z : Z) : string :=
  if z <? 0 then "-" +:+ string_of_N (Z.to_N (- z)) else string_of_N (Z.to_N z).

(** [len(str(n))]: the number of decimal digits of [n] (one for zero). *)
Definition ndigits (n : N) : Z := Z.of_nat (Decimal.nb_digits (N.to_uint n)).

(** Lower case of an ASCII letter; other characters stay.  It serves
    case-insensitive matching against ASCII words only. *)
Definition to_lower (c : ascii) : ascii :=
  let n := nat_of_ascii c in
  if (65 <=? n)%nat && (n <=? 90)%nat then ascii_of_nat (n + 32) else c.

(** [str.isspace] on the code points below 256: tab, newline, vertical tab,
    form feed, carriage return, the four separators 28 to 31, space, next
    line (133) and no-break space (160). *)
Definition is_space (c : ascii) : bool :=
  let n := nat_of_ascii c in
  ((9 <=? n)%nat && (n <=? 13)%nat) || ((28 <=? n)%nat && (n <=? 32)%nat)
  || (n =? 133)%nat || (n =? 160)%nat.

(** The leading run of digits of a text, and what follows it. *)
Fixpoint span_digits (s : list ascii) : list ascii * list ascii :=
  match s with
  | c :: rest =>
      if is_digit c then
        let '(ds, tl) := span_digits rest in (c :: ds, tl)
      else ([], s)
  | [] => ([], [])
  end.

Fixpoint drop_while (p : ascii -> bool) (s : list ascii) : list ascii :=
  match s with
  | c :: rest => if p c then drop_while p rest else s
  | [] => []
  end.

(** [s.strip()] *)
Definition strip (s : list ascii) : list ascii :=
  rev (drop_while is_space (rev (drop_while is_space s))).

(** A string as the list of its characters. *)
Definition chars (s : string) : list ascii := list_ascii_of_string s.

Definition ascii_eqb_list (a b : list ascii) : bool :=
  bool_decide (a = b).

(** ** Python's [decimal.Decimal] under the default context

    The default context has precision 28, rounding [ROUND_HALF_EVEN],
    [Emin = -999999], [Emax = 999999], and traps [InvalidOperation],
    [DivisionByZero] and [Overflow]: an operation that signals one of these
    raises it; the other signals only set flags, which the program never
    reads. *)
Module PyDecimal.

(** A finite number is [(-1)^sign * coeff * 10^exp]; a NaN is quiet or
    signalling and carries a payload (0 for none). *)
Inductive Decimal : Type :=
| Finite (sign : bool) (coeff : N) (exp : Z)
| Infinity (sign : bool)
| NaN (signaling : bool) (sign : bool) (payload : N).

Definition prec : Z := 28.
Definition Emax : Z := 999999.
Definition Emin : Z := -999999.
Definition Etiny : Z := Emin - prec + 1.
Definition Etop : Z := Emax - prec + 1.

(** Limits of the constructor (64-bit build): [MAX_EMAX] and [MIN_ETINY]. *)
Definition MAX_EMAX : Z := 999999999999999999.
Definition MIN_ETINY : Z := -1999999999999999997.

Definition conversion_syntax : Exn :=
  InvalidOperation "[<class 'decimal.ConversionSyntax'>]".
Definition invalid_operation : Exn :=
  InvalidOperation "[<class 'decimal.InvalidOperation'>]".
Definition division_undefined : Exn :=
  InvalidOperation "[<class 'decimal.DivisionUndefined'>]".

(** *** [Decimal(text)] *)

(** The exponent part [E[-+]?\d+] at the end of a numeric string, or
    nothing. *)
Definition parse_exponent (s : list ascii) : option Z :=
  match s with
  | [] => Some 0
  | e :: rest =>
      if Ascii.eqb (to_lower e) "e" then
        let '(neg, ds) :=
          match rest with
          | "-"%char :: ds => (true, ds)
          | "+"%char :: ds => (false, ds)
          | _ => (false, rest)
          end in
        let '(digs, tl) := span_digits ds in
        match digs, tl with
        | _ :: _, [] =>
            let v := Z.of_N (digits_to_N digs) in
            Some (if neg then - v else v)
        | _, _ => None
        end
      else None
  end.

(** A number: digits with an optional fraction (at least one digit in
    all) and an optional exponent.  The constructor is exact: it refuses
    what the widest context would round or clamp. *)
Definition parse_number (sign : bool) (s : list ascii) : outcome Decimal :=
  let '(intpart, after_int) := span_digits s in
  let '(fracpart, after_frac) :=
    match after_int with
    | "."%char :: r => span_digits r
    | _ => ([], after_int)
    end in
  match (intpart ++ fracpart)%list with
  | [] => Raise conversion_syntax
  | digs =>
      match parse_exponent after_frac with
      | None => Raise conversion_syntax
      | Some e =>
          let coeff := digits_to_N digs in
          let exp := e - Z.of_nat (length fracpart) in
          let fits :=
            if (coeff =? 0)%N then (MIN_ETINY <=? exp) && (exp <=? MAX_EMAX)
            else (MIN_ETINY <=? exp) && (exp + ndigits coeff - 1 <=? MAX_EMAX) in
          if fits then Ok (Finite sign coeff exp) else Raise invalid_operation
      end
  end.

(** [Inf], [Infinity], [NaN] and [sNaN] with an optional payload, in any
    letter case. *)
Definition parse_special (sign : bool) (s : list ascii) : outcome Decimal :=
  let low := map to_lower s in
  if ascii_eqb_list low (chars "inf") || ascii_eqb_list low (chars "infinity")
  then Ok (Infinity sign)
  else
    let '(signaling, body) :=
      match low with
      | "s"%char :: r => (true, r)
      | _ => (false, low)
      end in
    match body with
    | "n"%char :: "a"%char :: "n"%char :: diag =>
        let '(digs, tl) := span_digits diag in
        match tl with
        | [] => Ok (NaN signaling sign (digits_to_N digs))
        | _ => Raise conversion_syntax
        end
    | _ => Raise conversion_syntax
    end.

(** [Decimal(value)] for a [str]: surrounding whitespace is stripped and
    underscores are dropped before the text is matched. *)
Definition of_string (value : string) : outcome Decimal :=
  let s := filter (fun c => c <> "_"%char) (strip (chars value)) in
  let '(sign, body) :=
    match s with
    | "-"%char :: r => (true, r)
    | "+"%char :: r => (false, r)
    | _ => (false, s)
    end in
  match body with
  | c :: r =>
      if is_digit c || Ascii.eqb c "." then parse_number sign body
      else parse_special sign body
  | [] => Raise conversion_syntax
  end.

(** *** Rounding to the context: [Decimal._fix] *)

(** [ROUND_HALF_EVEN] of the coefficient [c] when its last [shift] digits
    are dropped.  With fewer than [shift] digits the number is below half
    a unit and rounds to zero. *)
Definition round_half_even (c : N) (shift : Z) : N :=
  if ndigits c <? shift then 0%N
  else
    let p := (10 ^ Z.to_N shift)%N in
    let q := (c / p)%N in
    let r := (c mod p)%N in
    if (p <? 2 * r)%N then (q + 1)%N
    else if (2 * r =? p)%N && N.odd q then (q + 1)%N
    else q.

(** [_fix] on a finite number: a zero gets its exponent clamped; a number
    whose adjusted exponent exceeds [Emax] signals [Overflow] (trapped);
    a number with more than [prec] digits, or below [Etiny], is rounded,
    and a carry out of the top digit moves the exponent up by one. *)
Definition fix_finite (sign : bool) (c : N) (e : Z) : outcome Decimal :=
  if (c =? 0)%N then Ok (Finite sign 0 (Z.min (Z.max e Etiny) Emax))
  else
    let exp_min := ndigits c + e - prec in
    if Etop <? exp_min then Raise Overflow
    else
      let exp_min := Z.max exp_min Etiny in
      if e <? exp_min then
        let coeff := round_half_even c (exp_min - e) in
        let '(coeff, exp_min) :=
          if prec <? ndigits coeff then ((coeff / 10)%N, exp_min + 1)
          else (coeff, exp_min) in
        if Etop <? exp_min then Raise Overflow
        else Ok (Finite sign coeff exp_min)
      else Ok (Finite sign c e).

(** [_fix_nan]: a payload longer than the precision keeps its last
    [prec] digits. *)
Definition fix_nan (sign : bool) (payload : N) : Decimal :=
  NaN false sign
    (if prec <? ndigits payload then (payload mod 10 ^ Z.to_N prec)%N
     else payload).

(** [_check_nans]: a signalling NaN operand signals [InvalidOperation]
    (trapped); otherwise the first quiet NaN operand is the result. *)
Definition check_nans (a b : Decimal) : option (outcome Decimal) :=
  match a, b with
  | NaN true _ _, _ => Some (Raise invalid_operation)
  | _, NaN true _ _ => Some (Raise invalid_operation)
  | NaN false s p, _ => Some (Ok (fix_nan s p))
  | _, NaN false s p => Some (Ok (fix_nan s p))
  | _, _ => None
  end.

(** The coefficient of [_rescale(exp, rounding)] on a finite number:
    padded with zeros down to a lower exponent, rounded up to a higher one. *)
Definition rescale (c : N) (e : Z) (exp : Z) : N :=
  if (c =? 0)%N then 0%N
  else if exp <=? e then (c * 10 ^ Z.to_N (e - exp))%N
  else round_half_even c (exp - e).

(** [_normalize(op1, op2, prec)]: both operands brought to one exponent.
    An operand too small to influence the rounded sum is first replaced
    by a unit at an exponent just below the other's last kept digit. *)
Definition normalize (c1 : N) (e1 : Z) (c2 : N) (e2 : Z) : (N * N) * Z :=
  let swap := e1 <? e2 in
  let '(tc, te, oc, oe) := if swap then (c2, e2, c1, e1) else (c1, e1, c2, e2) in
  let exp := te + Z.min (-1) (ndigits tc - prec - 2) in
  let '(oc, oe) := if ndigits oc + oe - 1 <? exp then (1%N, exp) else (oc, oe) in
  let tc := (tc * 10 ^ Z.to_N (te - oe))%N in
  if swap then ((oc, tc), oe) else ((tc, oc), oe).

(** *** Arithmetic: [__add__], [__sub__], [__mul__], [__truediv__] *)

(** The exact sum at the smaller exponent, then [_fix].  Two zeros keep a
    minus sign only if both have one; a zero difference is positive. *)
Definition add (a b : Decimal) : outcome Decimal :=
  match check_nans a b with
  | Some r => r
  | None =>
      match a, b with
      | Infinity sa, Infinity sb =>
          if Bool.eqb sa sb then Ok a else Raise invalid_operation
      | Infinity _, _ => Ok a
      | _, Infinity _ => Ok b
      | Finite s1 c1 e1, Finite s2 c2 e2 =>
          let exp := Z.min e1 e2 in
          if (c1 =? 0)%N && (c2 =? 0)%N then fix_finite (s1 && s2) 0 exp
          else if (c1 =? 0)%N then
            let exp := Z.max exp (e2 - prec - 1) in
            fix_finite s2 (rescale c2 e2 exp) exp
          else if (c2 =? 0)%N then
            let exp := Z.max exp (e1 - prec - 1) in
            fix_finite s1 (rescale c1 e1 exp) exp
          else
            let '((n1, n2), ne) := normalize c1 e1 c2 e2 in
            if Bool.eqb s1 s2 then fix_finite s1 (n1 + n2) ne
            else if (n1 =? n2)%N then fix_finite false 0 exp
            else if (n1 <? n2)%N then fix_finite s2 (n2 - n1) ne
            else fix_finite s1 (n1 - n2) ne
      | _, _ => Raise invalid_operation
      end
  end.

(** [copy_negate] *)
Definition copy_negate (a : Decimal) : Decimal :=
  match a with
  | Finite s c e => Finite (negb s) c e
  | Infinity s => Infinity (negb s)
  | NaN sg s p => NaN sg (negb s) p
  end.

(** [self + other.copy_negate()], after the check for NaNs. *)
Definition sub (a b : Decimal) : outcome Decimal :=
  match check_nans a b with
  | Some r => r
  | None => add a (copy_negate b)
  end.

(** The exact product, then [_fix]; infinity times zero is invalid. *)
Definition mul (a b : Decimal) : outcome Decimal :=
  match check_nans a b with
  | Some r => r
  | None =>
      match a, b with
      | Infinity sa, Infinity sb => Ok (Infinity (xorb sa sb))
      | Infinity sa, Finite sb cb _ =>
          if (cb =? 0)%N then Raise invalid_operation
          else Ok (Infinity (xorb sa sb))
      | Finite sa ca _, Infinity sb =>
          if (ca =? 0)%N then Raise invalid_operation
          else Ok (Infinity (xorb sa sb))
      | Finite s1 c1 e1, Finite s2 c2 e2 =>
          fix_finite (xorb s1 s2) (c1 * c2) (e1 + e2)
      | _, _ => Raise invalid_operation
      end
  end.

(** The loop [while exp < ideal_exp and coeff % 10 == 0] of [__truediv__];
    it runs at most once for each digit of the quotient. *)
Fixpoint strip_to_ideal (fuel : nat) (coeff : N) (exp ideal : Z) : N * Z :=
  match fuel with
  | O => (coeff, exp)
  | S fuel' =>
      if (exp <? ideal) && (coeff mod 10 =? 0)%N
      then strip_to_ideal fuel' (coeff / 10)%N (exp + 1) ideal
      else (coeff, exp)
  end.

(** The quotient is computed to [prec + 1] digits beyond the divisor's
    length; an inexact quotient ending in 0 or 5 is moved off the tie, an
    exact one sheds trailing zeros down to the ideal exponent. *)
Definition truediv (a b : Decimal) : outcome Decimal :=
  match check_nans a b with
  | Some r => r
  | None =>
      match a, b with
      | Infinity _, Infinity _ => Raise invalid_operation
      | Infinity sa, Finite sb _ _ => Ok (Infinity (xorb sa sb))
      | Finite sa _ _, Infinity sb => Ok (Finite (xorb sa sb) 0 Etiny)
      | Finite s1 c1 e1, Finite s2 c2 e2 =>
          let sign := xorb s1 s2 in
          if (c2 =? 0)%N then
            if (c1 =? 0)%N then Raise division_undefined
            else Raise DivisionByZero
          else if (c1 =? 0)%N then fix_finite sign 0 (e1 - e2)
          else
            let shift := ndigits c2 - ndigits c1 + prec + 1 in
            let exp := e1 - e2 - shift in
            let '(num, den) :=
              if 0 <=? shift then ((c1 * 10 ^ Z.to_N shift)%N, c2)
              else (c1, (c2 * 10 ^ Z.to_N (- shift))%N) in
            let coeff := (num / den)%N in
            let remainder := (num mod den)%N in
            if (remainder =? 0)%N then
              let '(coeff, exp) :=
                strip_to_ideal (Z.to_nat (ndigits coeff)) coeff exp (e1 - e2) in
              fix_finite sign coeff exp
            else
              fix_finite sign
                (if (coeff mod 5 =? 0)%N then (coeff + 1)%N else coeff) exp
      | _, _ => Raise invalid_operation
      end
  end.

(** *** [__str__] *)

(** ['0' * n] *)
Fixpoint zeros (n : nat) : string :=
  match n with
  | O => ""
  | S n' => "0" +:+ zeros n'
  end.

(** ["%+d" % n] *)
Definition signed_int (n : Z) : string :=
  if n <? 0 then string_of_Z n else "+" +:+ string_of_Z n.

(** Scientific notation is used when the exponent is positive or the
    number has more than six leading zeros after the point. *)
Definition to_string (d : Decimal) : string :=
  match d with
  | Infinity s => (if s then "-" else "") +:+ "Infinity"
  | NaN sg s p =>
      (if s then "-" else "") +:+ (if sg then "sNaN" else "NaN")
      +:+ (if (p =? 0)%N then "" else string_of_N p)
  | Finite s c e =>
      let int := string_of_N c in
      let len := Z.of_nat (String.length int) in
      let leftdigits := e + len in
      let dotplace := if (e <=? 0) && (-6 <? leftdigits) then leftdigits else 1 in
      let '(intpart, fracpart) :=
        if dotplace <=? 0 then ("0", "." +:+ zeros (Z.to_nat (- dotplace)) +:+ int)
        else if len <=? dotplace then (int +:+ zeros (Z.to_nat (dotplace - len)), "")
        else (substring 0 (Z.to_nat dotplace) int,
              "." +:+ substring (Z.to_nat dotplace) (Z.to_nat (len - dotplace)) int) in
      let exp :=
        if leftdigits =? dotplace then ""
        else "E" +:+ signed_int (leftdigits - dotplace) in
      (if s then "-" else "") +:+ intpart +:+ fracpart +:+ exp
  end.

End PyDecimal.

(** ** Binary64 numbers, as pandas reads and writes them

    A [float64] value is a [spec_float] in canonical form for precision 53:
    [S754_finite s m e] is [(-1)^s * m * 2^e] with [2^52 <= m < 2^53], or
    with [e = -1074] for a subnormal number. *)
Module Float64.

(** Numerator and denominator of [(num / den) / 2^e]. *)
Definition scaled (num den e : Z) : Z * Z :=
  if 0 <=? e then (num, den * 2 ^ e) else (num * 2 ^ (- e), den).

(** The binary64 number nearest to [num / den] (both positive), ties to
    even: the correctly rounded result of one IEEE operation. *)
Definition round_ratio (s : bool) (num den : Z) : spec_float :=
  if num <=? 0 then S754_zero s
  else
    let e := Z.log2 num - Z.log2 den - 52 in
    let '(n, d) := scaled num den e in
    let e := if n / d <? 2 ^ 52 then e - 1 else e in
    let e := Z.max e (-1074) in
    let '(n, d) := scaled num den e in
    let q := n / d in
    let r := n mod d in
    let q := if (d <? 2 * r) || ((2 * r =? d) && Z.odd q) then q + 1 else q in
    let '(q, e) := if q =? 2 ^ 53 then (2 ^ 52, e + 1) else (q, e) in
    if q =? 0 then S754_zero s
    else if 971 <? e then S754_infinity s
    else S754_finite s (Z.to_pos q) e.

(** [float(z)] for an integer. *)
Definition of_Z (z : Z) : spec_float :=
  if z <? 0 then round_ratio true (- z) 1 else round_ratio false z 1.

(** The nearest binary64 to [c * 10^e10]. *)
Definition of_decimal (s : bool) (c : Z) (e10 : Z) : spec_float :=
  if 0 <=? e10 then round_ratio s (c * 10 ^ e10) 1
  else round_ratio s c (10 ^ (- e10)).

(** Exact value of a positive finite number as a fraction. *)
Definition to_ratio (m : positive) (e : Z) : Z * Z :=
  if 0 <=? e then (Z.pos m * 2 ^ e, 1) else (Z.pos m, 2 ^ (- e)).

(** The two are the same binary64 datum. *)
Definition same (a b : spec_float) : bool :=
  match a, b with
  | S754_finite s1 m1 e1, S754_finite s2 m2 e2 =>
      Bool.eqb s1 s2 && Pos.eqb m1 m2 && (e1 =? e2)
  | S754_zero s1, S754_zero s2 => Bool.eqb s1 s2
  | S754_infinity s1, S754_infinity s2 => Bool.eqb s1 s2
  | S754_nan, S754_nan => true
  | _, _ => false
  end.

(** *** Shortest decimal that reads back: [repr(float)] *)

(** [floor(log10 (num / den))] *)
Definition floor_log10 (num den : Z) : Z :=
  let x := ndigits (Z.to_N num) - ndigits (Z.to_N den) in
  let below :=
    if 0 <=? x then num <? den * 10 ^ x else num * 10 ^ (- x) <? den in
  if below then x - 1 else x.

(** The two decimals of [n] digits around [num / den], the nearer one
    first, each as coefficient and exponent. *)
Definition neighbours (num den : Z) (n : Z) : list (Z * Z) :=
  let k := floor_log10 num den - (n - 1) in
  let '(a, b) := if 0 <=? k then (num, den * 10 ^ k) else (num * 10 ^ (- k), den) in
  let lo := a / b in
  let r := a mod b in
  if r =? 0 then [(lo, k)]
  else if 2 * r <=? b then [(lo, k); (lo + 1, k)]
  else [(lo + 1, k); (lo, k)].

(** The decimal with the fewest digits, from [n] digits on, that reads back
    as [v]; of two with as few digits the one nearer to [v].  Seventeen
    digits always suffice. *)
Fixpoint shortest (fuel : nat) (n : Z) (v : spec_float) (num den : Z) : Z * Z :=
  match fuel with
  | O => (num, 0)
  | S fuel' =>
      match filter (fun '(c, k) => same (of_decimal false c k) v)
                   (neighbours num den n) with
      | ck :: _ => ck
      | [] => shortest fuel' (n + 1) v num den
      end
  end.

(** Trailing zeros of the coefficient moved into the exponent. *)
Fixpoint strip_zeros (fuel : nat) (c k : Z) : Z * Z :=
  match fuel with
  | O => (c, k)
  | S fuel' =>
      if (c mod 10 =? 0) && negb (c =? 0) then strip_zeros fuel' (c / 10) (k + 1)
      else (c, k)
  end.

(** Layout of [repr]: plain notation while the decimal point falls within
    [-4 < decpt <= 16], else scientific with a two-digit exponent at
    least. *)
Definition layout (digits : string) (k : Z) : string :=
  let len := Z.of_nat (String.length digits) in
  let decpt := len + k in
  if (decpt <=? -4) || (16 <? decpt) then
    let x := decpt - 1 in
    let mant :=
      if len =? 1 then digits
      else substring 0 1 digits +:+ "." +:+ substring 1 (Z.to_nat (len - 1)) digits in
    let ax := string_of_Z (Z.abs x) in
    mant +:+ "e" +:+ (if x <? 0 then "-" else "+")
         +:+ (if Z.abs x <? 10 then "0" else "") +:+ ax
  else if decpt <=? 0 then
    "0." +:+ PyDecimal.zeros (Z.to_nat (- decpt)) +:+ digits
  else if len <=? decpt then
    digits +:+ PyDecimal.zeros (Z.to_nat (decpt - len)) +:+ ".0"
  else
    substring 0 (Z.to_nat decpt) digits +:+ "."
      +:+ substring (Z.to_nat decpt) (Z.to_nat (len - decpt)) digits.

(** [repr(v)], which is also what [to_csv] writes for a float64. *)
Definition repr (v : spec_float) : string :=
  match v with
  | S754_nan => "nan"
  | S754_infinity s => if s then "-inf" else "inf"
  | S754_zero s => if s then "-0.0" else "0.0"
  | S754_finite s m e =>
      let '(num, den) := to_ratio m e in
      let '(c, k) := shortest 17 1 (S754_finite false m e) num den in
      let '(c, k) := strip_zeros 20 c k in
      (if s then "-" else "") +:+ layout (string_of_Z c) k
  end.

End Float64.

(** ** The part of pandas the facade calls

    A [DataFrame] is a list of column labels and a list of rows, each row
    holding one cell per column.  Every frame the program builds has the
    default index 0, 1, ..., so a row's label is its position.  Cells carry
    their own Python type; column dtypes are not recorded separately. *)
Module Pandas.
Import PyDecimal.

Inductive Cell : Type :=
| CStr (s : string)          (* str *)
| CDec (d : Decimal)         (* decimal.Decimal *)
| CInt (z : Z)               (* int64 *)
| CFloat (f : spec_float)    (* float64, not missing *)
| CBool (b : bool)           (* bool *)
| CNull.                     (* missing: None or NaN *)

Record DataFrame : Type := mkDataFrame {
  columns : list string;
  rows : list (list Cell)
}.

(** What a library call yields on an input: a value, an exception, or
    nothing when the input lies outside the part of the library that is
    modelled here. *)
Inductive lib (A : Type) : Type :=
| Returns (a : A)
| Raises (e : Exn)
| Unmodelled.
Arguments Returns {A} a.
Arguments Raises {A} e.
Arguments Unmodelled {A}.

(** [pd.DataFrame(columns=cols)] *)
Definition empty_frame (cols : list string) : DataFrame :=
  mkDataFrame cols [].

(** [len(df)] *)
Definition len (df : DataFrame) : Z := Z.of_nat (length (rows df)).

(** A Python [dict] with string keys, in insertion order. *)
Definition dict : Type := list (string * Cell).

Definition dict_get (k : string) (d : dict) : option Cell :=
  snd <$> List.find (fun kv => String.eqb (fst kv) k) d.

Definition mem (k : string) (l : list string) : bool :=
  existsb (String.eqb k) l.

(** A column is of type int64 when every one of its cells is an integer. *)
Definition int64_column (i : nat) (rows : list (list Cell)) : bool :=
  forallb (fun r => match r !! i with Some (CInt _) => true | _ => false end) rows.

(** [astype(float64)] on a cell of an int64 column. *)
Definition upcast (c : Cell) : Cell :=
  match c with
  | CInt z => CFloat (Float64.of_Z z)
  | _ => c
  end.

(** [pd.concat([df, pd.DataFrame([record])], ignore_index=True)]: the
    columns are those of [df] followed by the record's new keys; cells
    with no value are missing; the new row comes last.  An int64 column
    for which the record has no value has to hold a missing value, so it
    becomes float64 and its integers become floats; the columns of other
    types keep their cells. *)
Definition concat_record (df : DataFrame) (record : dict) : DataFrame :=
  let extra := List.filter (fun k => negb (mem k (columns df))) (map fst record) in
  let cols := (columns df ++ extra)%list in
  let widened (i : nat) : bool :=
    match columns df !! i with
    | Some c => negb (mem c (map fst record)) && int64_column i (rows df)
    | None => false
    end in
  mkDataFrame cols
    (map (fun r => (imap (fun i cell => if widened i then upcast cell else cell) r
                    ++ map (fun _ => CNull) extra)%list) (rows df)
     ++ [map (fun c => default CNull (dict_get c record)) cols])%list.

(** The position of a label among the column labels. *)
Fixpoint index_of (k : string) (l : list string) : option nat :=
  match l with
  | [] => None
  | x :: l' => if String.eqb x k then Some O else S <$> index_of k l'
  end.

(** [df[df[col] == value]] for a string [value]: [KeyError] without the
    column, else the rows whose cell is that string, in order. *)
Definition select_eq (df : DataFrame) (col value : string) : outcome DataFrame :=
  match index_of col (columns df) with
  | None => Raise (KeyError col)
  | Some i =>
      Ok (mkDataFrame (columns df)
            (List.filter (fun r => match r !! i with
                                   | Some (CStr s) => String.eqb s value
                                   | _ => false
                                   end) (rows df)))
  end.

(** [df.iloc[i][col]], or [None] where Python raises for a missing row or
    column. *)
Definition iloc (df : DataFrame) (i : nat) (col : string) : option Cell :=
  match rows df !! i, index_of col (columns df) with
  | Some r, Some j => r !! j
  | _, _ => None
  end.

(** [df.drop(i).reset_index(drop=True)] for a label [i] that is present. *)
Definition drop_row (df : DataFrame) (i : nat) : DataFrame :=
  mkDataFrame (columns df) (delete i (rows df)).

(** *** [to_csv(path, index=False)]: the text written *)

(** The delimiter, the quote character, line feed and carriage return. *)
Definition comma : ascii := ascii_of_nat 44.
Definition dquote : ascii := ascii_of_nat 34.
Definition newline : ascii := ascii_of_nat 10.
Definition cr : ascii := ascii_of_nat 13.

Definition str (cs : list ascii) : string := string_of_list_ascii cs.

(** What the writer prints for one cell.  A missing value prints as the
    empty field, and so does a decimal NaN, which [isna] counts as missing
    (a signalling one never gets this far: see [has_snan]). *)
Definition cell_text (c : Cell) : string :=
  match c with
  | CStr s => s
  | CDec (NaN _ _ _) => ""
  | CDec d => to_string d
  | CInt z => string_of_Z z
  | CFloat f => match f with S754_nan => "" | _ => Float64.repr f end
  | CBool b => if b then "True" else "False"
  | CNull => ""
  end.

(** [csv.QUOTE_MINIMAL]: a field holding a delimiter, a quote or a line
    break is quoted, its quotes doubled. *)
Definition csv_field (s : string) : string :=
  let cs := chars s in
  if existsb (fun c => bool_decide (c ∈ [comma; dquote; newline; cr])) cs then
    str (dquote :: flat_map (fun c => if Ascii.eqb c dquote then [c; c] else [c]) cs
           ++ [dquote])%list
  else s.

(** [sep.join(l)] *)
Fixpoint join (sep : string) (l : list string) : string :=
  match l with
  | [] => ""
  | [x] => x
  | x :: l' => x +:+ sep +:+ join sep l'
  end.

(** One line of the file.  A lone empty field is written quoted. *)
Definition csv_line (fields : list string) : string :=
  match fields with
  | [""] => str [dquote; dquote; newline]
  | _ => join (str [comma]) (map csv_field fields) +:+ str [newline]
  end.

(** The header line followed by one line for each row. *)
Definition csv_text (cols : list string) (rows : list (list Cell)) : string :=
  csv_line cols
  +:+ String.concat "" (map (fun r => csv_line (map cell_text r)) rows).

(** The whole text, which is what the writer leaves in the file when it
    does not raise. *)
Definition to_csv (df : DataFrame) : string :=
  csv_text (columns df) (rows df).

(** Before it writes a chunk of rows the writer asks [isna] of every cell,
    and [isna] compares a [Decimal] with itself: on a signalling NaN that
    comparison raises [InvalidOperation]. *)
Definition is_snan (c : Cell) : bool :=
  match c with
  | CDec (NaN true _ _) => true
  | _ => false
  end.

Definition has_snan (rows : list (list Cell)) : bool :=
  existsb (existsb is_snan) rows.

(** The rows are written in chunks of [100000 // number of columns] (at
    least one). *)
Definition chunksize (df : DataFrame) : nat :=
  N.to_nat (N.max 1 (100000 / N.max 1 (N.of_nat (length (columns df))))).

(** The rows of the chunks written before the first chunk that holds a
    signalling NaN.  The fuel is the number of rows. *)
Fixpoint clean_chunks (fuel size : nat) (rows : list (list Cell)) : list (list Cell) :=
  match fuel with
  | O => []
  | S fuel' =>
      match rows with
      | [] => []
      | _ =>
          let chunk := take size rows in
          if has_snan chunk then []
          else (chunk ++ clean_chunks fuel' size (drop size rows))%list
      end
  end.

(** What is in the file when the writer has raised on a signalling NaN: the
    header and the chunks before the one that raised. *)
Definition to_csv_partial (df : DataFrame) : string :=
  csv_text (columns df) (clean_chunks (length (rows df)) (chunksize df) (rows df)).

(** *** [pd.read_csv(path)]: the frame read from a text

    The model covers files of printable ASCII without spaces or quotes,
    with a header of distinct non-empty labels and data lines of as many
    fields as the header; numbers are covered when the default converter
    is known to round once: integers within int64, and decimals of at most
    15 digits with a power of ten of at most 22.  Anything else is
    [Unmodelled]. *)

Inductive Token : Type :=
| TNa
| TInt (z : Z)
| TNegZero                   (* the integer literal -0 *)
| TFloat (f : spec_float)
| TBool (b : bool)
| TStr
| TUnmodelled.

(** The default missing-value markers (those without a space). *)
Definition na_values : list string :=
  [""; "#N/A"; "#NA"; "-1.#IND"; "-1.#QNAN"; "-NaN"; "-nan"; "1.#IND";
   "1.#QNAN"; "<NA>"; "N/A"; "NA"; "NULL"; "NaN"; "n/a"; "nan"; "null"].

(** [s.split(sep)] for a one-character separator. *)
Fixpoint split_on (sep : ascii) (cs : list ascii) : list (list ascii) :=
  match cs with
  | [] => [[]]
  | c :: cs' =>
      if Ascii.eqb c sep then [] :: split_on sep cs'
      else match split_on sep cs' with
           | w :: ws => (c :: w) :: ws
           | [] => [[c]]
           end
  end.

(** The range of int64. *)
Definition in_int64 (z : Z) : bool := (- 2 ^ 63 <=? z) && (z <? 2 ^ 63).

(** An integer or decimal literal, or [None] when the text is no number. *)
Definition classify_number (cs : list ascii) : option Token :=
  let '(neg, body) :=
    match cs with
    | "-"%char :: r => (true, r)
    | "+"%char :: r => (false, r)
    | _ => (false, cs)
    end in
  let '(ip, after_int) := span_digits body in
  match ip, after_int with
  | _ :: _, [] =>
      let v := Z.of_N (digits_to_N ip) in
      let z := if neg then - v else v in
      Some (if in_int64 z then (if neg && (v =? 0) then TNegZero else TInt z)
            else TUnmodelled)
  | _, _ =>
      let '(fp, after_frac) :=
        match after_int with
        | "."%char :: r => span_digits r
        | _ => ([], after_int)
        end in
      match (ip ++ fp)%list with
      | [] => None
      | digs =>
          match parse_exponent after_frac with
          | None => None
          | Some e =>
              let e10 := e - Z.of_nat (length fp) in
              Some (if (length digs <=? 15)%nat && (Z.abs e10 <=? 22)
                    then TFloat (Float64.of_decimal neg (Z.of_N (digits_to_N digs)) e10)
                    else TUnmodelled)
          end
      end
  end.

(** What the reader makes of one field.  ["None"] is a missing-value marker
    in some versions of pandas only, and infinities are spelt in several
    ways; both are left out of the model. *)
Definition classify (s : string) : Token :=
  if mem s na_values then TNa
  else if String.eqb s "None" then TUnmodelled
  else
    match classify_number (chars s) with
    | Some t => t
    | None =>
        let low := str (map to_lower (chars s)) in
        if mem low ["inf"; "+inf"; "-inf"; "infinity"; "+infinity"; "-infinity"]
        then TUnmodelled
        else if String.eqb low "true" then TBool true
        else if String.eqb low "false" then TBool false
        else TStr
    end.

(** Type inference for one column: int64 when every field is an integer;
    float64 when every field is a number or missing; bool likewise; else
    the fields stay strings.  Missing fields become the missing value.  The
    literal [-0] is the integer 0 in an int64 column and the float [-0.0]
    in a float64 column, where the field is converted from its text. *)
Definition column_cells (raw : list string) : option (list Cell) :=
  let toks := map classify raw in
  if existsb (fun t => match t with TUnmodelled => true | _ => false end) toks
  then None
  else if forallb (fun t => match t with TInt _ | TNegZero => true
                                    | _ => false end) toks
  then Some (map (fun t => match t with
                           | TInt z => CInt z
                           | TNegZero => CInt 0
                           | _ => CNull
                           end) toks)
  else if forallb (fun t => match t with TInt _ | TNegZero | TFloat _ | TNa => true
                                    | _ => false end) toks
  then Some (map (fun t => match t with
                           | TInt z => CFloat (Float64.of_Z z)
                           | TNegZero => CFloat (S754_zero true)
                           | TFloat f => CFloat f
                           | _ => CNull
                           end) toks)
  else if forallb (fun t => match t with TBool _ | TNa => true | _ => false end) toks
  then Some (map (fun t => match t with TBool b => CBool b | _ => CNull end) toks)
  else Some (map (fun s => match classify s with TNa => CNull | _ => CStr s end) raw).

(** Rows to columns and back, for a table of [n] columns. *)
Definition transpose {A : Type} (n : nat) (m : list (list A)) : list (list A) :=
  map (fun i => omap (fun r => r !! i) m) (seq 0 n).

(** The characters of a modelled file: line feed and printable ASCII other
    than space and the quote. *)
Definition modelled_char (c : ascii) : bool :=
  let n := nat_of_ascii c in
  (n =? 10)%nat || ((33 <=? n)%nat && (n <=? 126)%nat && negb (n =? 34)%nat).

(** The first non-blank line is the header, whatever it says; the other
    non-blank lines are the records.  A text with no line at all raises
    [EmptyDataError]. *)
Definition read_csv (text : string) : lib DataFrame :=
  let cs := chars text in
  if negb (forallb modelled_char cs) then Unmodelled
  else
    match List.filter (fun l => negb (bool_decide (l = []))) (split_on newline cs) with
    | [] => Raises EmptyDataError
    | header :: data =>
        let cols := map str (split_on comma header) in
        let table := map (fun l => map str (split_on comma l)) data in
        if mem "" cols || negb (bool_decide (NoDup cols))
           || negb (forallb (fun r => (length r =? length cols)%nat) table)
        then Unmodelled
        else
          match mapM column_cells (transpose (length cols) table) with
          | None => Unmodelled
          | Some cells => Returns (mkDataFrame cols (transpose (length table) cells))
          end
    end.

End Pandas.

Import PyDecimal Pandas.

(** ** [calculator/command.py] and [calculator/plugins/]

    The six concrete commands of the repository.  Each class is stateless,
    so an instance is the class itself; [execute] dispatches on it as
    Python's method lookup does. *)
Inductive Command : Type :=
| AddCommand
| SubtractCommand
| MultiplyCommand
| SquareCommand
| MeanCommand
| MedianCommand.

Definition operation_name (self : Command) : string :=
  match self with
  | AddCommand => "add"
  | SubtractCommand => "subtract"
  | MultiplyCommand => "multiply"
  | SquareCommand => "square"
  | MeanCommand => "mean"
  | MedianCommand => "median"
  end.

(** The [int] 2 as [Decimal] converts it before dividing. *)
Definition two : Decimal := Finite false 2 0.

Definition execute (self : Command) (num1 num2 : Decimal) : outcome Decimal :=
  match self with
  | AddCommand => add num1 num2
  | SubtractCommand => sub num1 num2
  | MultiplyCommand => mul num1 num2
  | SquareCommand => mul num1 num1
  | MeanCommand => let* s := add num1 num2 in truediv s two
  | MedianCommand => let* s := add num1 num2 in truediv s two
  end.

(** The result channel: the values put and not yet taken, oldest first. *)
Definition Queue : Type := list Decimal.

(** The same body in all six classes:
    [result = self.execute(num1, num2); result_queue.put(result)]. *)
Definition execute_multiprocessing (self : Command) (num1 num2 : Decimal)
    (result_queue : Queue) : outcome Queue :=
  let* result := execute self num1 num2 in
  Ok (result_queue ++ [result])%list.

(** ** [calculator/calculation.py] *)

Record Calculation : Type := mkCalculation {
  a : Decimal;
  b : Decimal;
  operation : Command;
  result : option Decimal
}.

(** [Calculation(a, b, operation)]: the result starts as [None]. *)
Definition new_Calculation (a b : Decimal) (operation : Command) : Calculation :=
  mkCalculation a b operation None.

(** [operate]: stores the result in the object and returns it. *)
Definition operate (self : Calculation) : outcome (Decimal * Calculation) :=
  let* r := execute (operation self) (a self) (b self) in
  Ok (r, mkCalculation (a self) (b self) (operation self) (Some r)).

(** ** The state the program works on

    [dataframe] is [Calculations.facade.dataframe], the one frame shared by
    the whole process; [files] maps a path to the text of the file there
    (paths are compared as written; what exists is a readable file);
    [stdout] holds the lines printed so far. *)
Record World : Type := mkWorld {
  dataframe : DataFrame;
  files : gmap string string;
  stdout : list string
}.

Definition print (line : string) (w : World) : World :=
  mkWorld (dataframe w) (files w) (stdout w ++ [line]).

Definition set_dataframe (df : DataFrame) (w : World) : World :=
  mkWorld df (files w) (stdout w).

(** What the file system answers when a path is opened for writing: nothing
    when the file is opened, or the text of the [OSError] it raises (no such
    directory, no permission, a directory in the way). *)
Definition Disk : Type := string -> option string.

(** A file system on which every path can be opened for writing. *)
Definition writable : Disk := fun _ => None.

(** How a call that writes ends: it returns, or it raises; either way the
    state it leaves is given. *)
Inductive Effect : Type :=
| Done (w : World)
| Failed (e : Exn) (w : World).

(** ** [calculator/pandas_facade.py] *)

Definition history_columns : list string := ["operation"; "num1"; "num2"; "result"].

(** [PandasFacade.__init__] *)
Definition new_facade : DataFrame := empty_frame history_columns.

Definition add_record (record : dict) (w : World) : World :=
  set_dataframe (concat_record (dataframe w) record) w.

Definition clear (w : World) : World :=
  set_dataframe (empty_frame (columns (dataframe w))) w.

Definition filter_by_operation (operation : string) (w : World) : outcome DataFrame :=
  select_eq (dataframe w) "operation" operation.

(** [self.dataframe.to_csv(filepath, index=False)].  When the path cannot
    be opened nothing is written.  When a cell is a signalling NaN the file
    has been opened and keeps what was written before the writer raised. *)
Definition save_to_file (disk : Disk) (filepath : string) (w : World) : Effect :=
  match disk filepath with
  | Some message => Failed (OSError message) w
  | None =>
      let df := dataframe w in
      if has_snan (rows df) then
        Failed invalid_operation
          (mkWorld df (<[filepath := to_csv_partial df]> (files w)) (stdout w))
      else
        Done (mkWorld df (<[filepath := to_csv df]> (files w)) (stdout w))
  end.

(** [self.dataframe = pd.read_csv(filepath)]: the frame is assigned only
    when the read returns. *)
Definition load_from_file (filepath : string) (w : World) : lib World :=
  match files w !! filepath with
  | None => Raises (FileNotFoundError filepath)
  | Some text =>
      match read_csv text with
      | Returns df => Returns (set_dataframe df w)
      | Raises e => Raises e
      | Unmodelled => Unmodelled
      end
  end.

Definition delete_record (index : Z) (w : World) : World :=
  if (0 <=? index) && (index <? len (dataframe w)) then
    print ("Deleted calculation at index " +:+ string_of_Z index +:+ ".")
          (set_dataframe (drop_row (dataframe w) (Z.to_nat index)) w)
  else
    print ("Index " +:+ string_of_Z index +:+ " is out of range. Unable to delete.") w.

(** ** [calculator/calculations.py] *)

Definition option_cell (r : option Decimal) : Cell :=
  match r with
  | Some d => CDec d
  | None => CNull
  end.

Definition add_calculation (calculation : Calculation) (w : World) : World :=
  let new_record : dict :=
    [("operation", CStr (operation_name (operation calculation)));
     ("num1", CDec (a calculation));
     ("num2", CDec (b calculation));
     ("result", option_cell (result calculation))] in
  add_record new_record w.

Definition clear_history (w : World) : World := clear w.

Definition get_all_calculations (w : World) : DataFrame := dataframe w.

Definition filter_with_operation (operation : string) (w : World) : outcome DataFrame :=
  filter_by_operation operation w.

Definition save_history (disk : Disk) (filepath : string) (w : World) : Effect :=
  save_to_file disk filepath w.

Definition load_history (filepath : string) (w : World) : lib World :=
  load_from_file filepath w.

Definition delete_history (index : Z) (w : World) : World :=
  delete_record index w.

(** ** [main.py] *)

(** An [OrderedDict] with string keys: [.get] and item assignment, which
    keeps the position of a key already present. *)
Fixpoint dict_lookup {V : Type} (k : string) (d : list (string * V)) : option V :=
  match d with
  | [] => None
  | (k', v) :: d' => if String.eqb k' k then Some v else dict_lookup k d'
  end.

Fixpoint dict_set {V : Type} (k : string) (v : V) (d : list (string * V))
    : list (string * V) :=
  match d with
  | [] => [(k, v)]
  | (k', v') :: d' =>
      if String.eqb k' k then (k, v) :: d' else (k', v') :: dict_set k v d'
  end.

(** [s.endswith(suffix)] *)
Definition endswith (s suffix : string) : bool :=
  let n := String.length s in
  let m := String.length suffix in
  (m <=? n)%nat && String.eqb (substring (n - m) m s) suffix.

(** [s[:-n]] for [n > 0] *)
Definition drop_last (n : nat) (s : string) : string :=
  substring 0 (String.length s - n) s.

Definition to_upper (c : ascii) : ascii :=
  let n := nat_of_ascii c in
  if (97 <=? n)%nat && (n <=? 122)%nat then ascii_of_nat (n - 32) else c.

(** [s.capitalize()] on ASCII letters: first character upper case, the rest
    lower case.  The loader applies it to the stem of a module it has just
    imported, and the modules of the package have ASCII names. *)
Definition capitalize (s : string) : string :=
  match s with
  | EmptyString => EmptyString
  | String c rest => String (to_upper c) (str (map to_lower (chars rest)))
  end.

(** The modules of the package [calculator.plugins] and the command class
    each one defines.  (A module also binds the imported names [Decimal] and
    [Command]; the loader asks a module only for a name ending in [Command]
    with a non-empty stem in front when the import succeeded, so those two
    are never the answer.) *)
Definition plugin_modules : list (string * list (string * Command)) :=
  [("calculator.plugins.add_command", [("AddCommand", AddCommand)]);
   ("calculator.plugins.subtract_command", [("SubtractCommand", SubtractCommand)]);
   ("calculator.plugins.multiply_command", [("MultiplyCommand", MultiplyCommand)]);
   ("calculator.plugins.square_command", [("SquareCommand", SquareCommand)]);
   ("calculator.plugins.mean_command", [("MeanCommand", MeanCommand)]);
   ("calculator.plugins.median_command", [("MedianCommand", MedianCommand)])].

(** [importlib.import_module(name)]; [None] stands for [ImportError]. *)
Definition import_module (name : string) : option (list (string * Command)) :=
  dict_lookup name plugin_modules.

(** [getattr(module, name)]; [None] stands for [AttributeError]. *)
Definition getattr (module : list (string * Command)) (name : string) : option Command :=
  dict_lookup name module.

(** One turn of the loop of [load_plugins] over a directory entry. *)
Definition load_plugin (commands : list (string * Command)) (filename : string)
    : list (string * Command) :=
  if endswith filename "_command.py" then
    let module_name := drop_last 3 filename in
    match import_module ("calculator.plugins." +:+ module_name) with
    | None => commands
    | Some module =>
        match getattr module (capitalize (drop_last 8 module_name) +:+ "Command") with
        | None => commands
        | Some command_class => dict_set (drop_last 8 module_name) command_class commands
        end
    end
  else commands.

(** [load_plugins()], given what [os.listdir] returns for the plugin
    directory, or [None] when the directory does not exist. *)
Definition load_plugins (plugins_dir : option (list string)) : list (string * Command) :=
  match plugins_dir with
  | None => []
  | Some listing => fold_left load_plugin listing []
  end.

(** What becomes of the worker process between [start()] and [join()]: it
    runs its target to the end, or it is terminated before the target has
    put anything on the queue. *)
Inductive Worker : Type :=
| RunsToEnd
| Terminated.

(** The queue as the parent finds it after [join()].  An exception in the
    target ends the child and leaves the queue as it was. *)
Definition run_process (worker : Worker) (target : Queue -> outcome Queue)
    (result_holder : Queue) : Queue :=
  match worker with
  | RunsToEnd =>
      match target result_holder with
      | Ok q => q
      | Raise _ => result_holder
      end
  | Terminated => result_holder
  end.

(** The two [except] clauses of [calculate_and_display_result]. *)
Definition handle (value1 value2 : string) (e : Exn) (w : World) : World :=
  if is_InvalidOperation e then
    print ("Invalid input detected. '" +:+ value1 +:+ "' or '" +:+ value2
           +:+ "' is not a valid number.") w
  else
    print ("An error occurred during computation: " +:+ exn_str e) w.

(** Lines 98 to 101: a fresh [Calculation] is operated and appended. *)
Definition record_calculation (value1 value2 : string) (num1 num2 : Decimal)
    (operation_handler : Command) (w : World) : World :=
  match operate (new_Calculation num1 num2 operation_handler) with
  | Ok (_, calc_record) => add_calculation calc_record w
  | Raise e => handle value1 value2 e w
  end.

Definition calculate_and_display_result (value1 value2 operation_key : string)
    (operations_dict : list (string * Command)) (enable_multiprocessing : bool)
    (worker : Worker) (w : World) : World :=
  match of_string value1 with
  | Raise e => handle value1 value2 e w
  | Ok num1_decimal =>
  match of_string value2 with
  | Raise e => handle value1 value2 e w
  | Ok num2_decimal =>
  match dict_lookup operation_key operations_dict with
  | None => print ("Unknown operation type: " +:+ operation_key) w
  | Some operation_handler =>
      if enable_multiprocessing then
        match run_process worker
                (execute_multiprocessing operation_handler num1_decimal num2_decimal)
                [] with
        | final_result :: _ =>
            record_calculation value1 value2 num1_decimal num2_decimal operation_handler
              (print ("The result of " +:+ value1 +:+ " " +:+ operation_key +:+ " "
                      +:+ value2 +:+ " (multiprocessing) is "
                      +:+ to_string final_result) w)
        | [] =>
            record_calculation value1 value2 num1_decimal num2_decimal operation_handler
              (print "Error: Multiprocessing computation failed." w)
        end
      else
        match execute operation_handler num1_decimal num2_decimal with
        | Ok final_result =>
            record_calculation value1 value2 num1_decimal num2_decimal operation_handler
              (print ("The result of " +:+ value1 +:+ " " +:+ operation_key +:+ " "
                      +:+ value2 +:+ " is " +:+ to_string final_result) w)
        | Raise e => handle value1 value2 e w
        end
  end
  end
  end.

(** The [load_history] branch of [run_repl], after the path has been split
    off the input line: the file is loaded only if [os.path.exists] says
    so.  An exception of the read leaves the loop. *)
Definition repl_load_history (filepath : string) (w : World) : lib World :=
  match files w !! filepath with
  | Some _ =>
      match load_history filepath w with
      | Returns w' => Returns (print ("History loaded from " +:+ filepath +:+ ".") w')
      | Raises e => Raises e
      | Unmodelled => Unmodelled
      end
  | None => Returns (print ("File not found: " +:+ filepath) w)
  end.

(** The process at start-up: an empty history, nothing printed. *)
Definition initial_world (files : gmap string string) : World :=
  mkWorld new_facade files [].

(** ** [main.py]: the interactive loop and the entry point *)

(** [s.startswith(prefix)] *)
Definition startswith (s prefix : string) : bool := String.prefix prefix s.

(** The first run of non-blank characters of a text and what follows it. *)
Fixpoint span_word (s : list ascii) : list ascii * list ascii :=
  match s with
  | c :: rest =>
      if is_space c then ([], s)
      else let '(word, tl) := span_word rest in (c :: word, tl)
  | [] => ([], [])
  end.

(** [s.split()]: the words between runs of whitespace.  The fuel bounds the
    number of words by the length of the text. *)
Fixpoint split_words (fuel : nat) (s : list ascii) : list (list ascii) :=
  match fuel with
  | O => []
  | S fuel' =>
      match drop_while is_space s with
      | [] => []
      | rest =>
          let '(word, tl) := span_word rest in
          word :: split_words fuel' tl
      end
  end.

Definition str_split (s : string) : list string :=
  map str (split_words (String.length s) (chars s)).

(** [s.split(maxsplit=1)]: the first word, and the rest of the text from
    its first non-blank character on, blanks at its end included. *)
Definition str_split_maxsplit_1 (s : string) : list string :=
  match drop_while is_space (chars s) with
  | [] => []
  | rest =>
      let '(word, tl) := span_word rest in
      match drop_while is_space tl with
      | [] => [str word]
      | remainder => [str word; str remainder]
      end
  end.

(** The digits of an integer literal as [int] reads it: digits, with single
    underscores allowed between two digits. *)
Fixpoint int_digits (after_digit : bool) (s : list ascii) : option (list ascii) :=
  match s with
  | [] => if after_digit then Some [] else None
  | c :: rest =>
      if is_digit c then cons c <$> int_digits true rest
      else if Ascii.eqb c "_" && after_digit then int_digits false rest
      else None
  end.

(** The whitespace [int] skips around a literal: not the separators 28 to
    31, which [str.split] does take for whitespace. *)
Definition int_space (c : ascii) : bool :=
  let n := nat_of_ascii c in
  ((9 <=? n)%nat && (n <=? 13)%nat) || (n =? 32)%nat
  || (n =? 133)%nat || (n =? 160)%nat.

(** [int(text)], or [None] for [ValueError].  A literal of more than 4300
    digits is refused (the default limit of the interpreter). *)
Definition int_of_string (text : string) : option Z :=
  let s := rev (drop_while int_space (rev (drop_while int_space (chars text)))) in
  let '(neg, body) :=
    match s with
    | "-"%char :: r => (true, r)
    | "+"%char :: r => (false, r)
    | _ => (false, s)
    end in
  match int_digits false body with
  | Some ds =>
      if (4300 <? length ds)%nat then None
      else
        let v := Z.of_N (digits_to_N ds) in
        Some (if neg then - v else v)
  | None => None
  end.

(** [df.empty]: no row or no column. *)
Definition df_empty (df : DataFrame) : bool :=
  match rows df, columns df with
  | [], _ | _, [] => true
  | _, _ => false
  end.

(** What leaves [run_repl] as an exception: one raised by a library call, or
    one of Python's own. *)
Inductive Uncaught : Type :=
| Library (e : Exn)
| ValueError
| AttributeError
| EOFError.

(** How one turn of the loop ends: with [continue] or by falling off the
    end of the body, with [break], or with an exception; or outside the
    model (a load of a file the reader model does not cover). *)
Inductive Turn : Type :=
| Continue (w : World)
| Break (w : World)
| Abort (e : Uncaught) (w : World)
| TurnUnmodelled.

(** How a run of the loop, or of the program, ends. *)
Inductive Run : Type :=
| Finished (w : World)
| Crashed (e : Uncaught) (w : World)
| RunUnmodelled.

Section Repl.

(** The text [print] shows for a frame with rows (pandas' own layout of
    columns, index and widths), taken as given. *)
Variable frame_repr : DataFrame -> string.

Variable commands : list (string * Command).

Variable disk : Disk.

(** [print(df)] for a frame with rows.  To lay the cells out pandas asks
    [isna] of each, which raises on a signalling NaN as it does in the
    writer. *)
Definition print_frame (df : DataFrame) (w : World) : Turn :=
  if has_snan (rows df) then Abort (Library invalid_operation) w
  else Continue (print (frame_repr df) w).

(** [for cmd_name in commands: print(f"- {cmd_name}")] *)
Definition print_menu (w : World) : World :=
  fold_left (fun w kc => print ("- " +:+ fst kc) w) commands
    (print "Available Commands:" w).

(** The body of the [while] loop of [run_repl] for one line of input. *)
Definition repl_turn (worker : Worker) (user_input : string) (w : World) : Turn :=
  if String.eqb user_input "exit" then Break (print "Exiting REPL mode..." w)
  else if String.eqb user_input "menu" then Continue (print_menu w)
  else if String.eqb user_input "history" then
    let history_df := get_all_calculations w in
    if df_empty history_df then Continue (print "No calculations in history." w)
    else print_frame history_df w
  else if String.eqb user_input "clear_history" then
    Continue (print "History cleared." (clear_history w))
  else if startswith user_input "save_history" then
    match str_split_maxsplit_1 user_input with
    | [_; filepath] =>
        match save_history disk filepath w with
        | Done w' => Continue (print ("History saved to " +:+ filepath +:+ ".") w')
        | Failed e w' => Abort (Library e) w'
        end
    | _ => Abort ValueError w
    end
  else if startswith user_input "load_history" then
    match str_split_maxsplit_1 user_input with
    | [_; filepath] =>
        match repl_load_history filepath w with
        | Returns w' => Continue w'
        | Raises e => Abort (Library e) w
        | Unmodelled => TurnUnmodelled
        end
    | _ => Abort ValueError w
    end
  else if String.eqb user_input "latest" then Abort AttributeError w
  else if startswith user_input "delete_history" then
    match str_split_maxsplit_1 user_input with
    | [_; index_str] =>
        match int_of_string index_str with
        | Some index => Continue (delete_history index w)
        | None => Continue (print "Usage: delete_history <index>" w)
        end
    | _ => Continue (print "Usage: delete_history <index>" w)
    end
  else if startswith user_input "filter_with_operation" then
    match str_split_maxsplit_1 user_input with
    | [_; operation_name] =>
        match filter_with_operation operation_name w with
        | Ok filtered_df =>
            if df_empty filtered_df then
              Continue (print ("No calculations found for operation: "
                               +:+ operation_name) w)
            else print_frame filtered_df w
        | Raise e => Abort (Library e) w
        end
    | _ => Continue (print "Usage: filter_with_operation <operation_name>" w)
    end
  else
    match str_split user_input with
    | command_name :: num1 :: num2 :: rest =>
        match rest with
        | [] | [_] =>
            let use_multiprocessing :=
              match rest with
              | [flag] => String.eqb flag "mp"
              | _ => false
              end in
            match dict_lookup command_name commands with
            | None => Continue (print ("Unknown command: " +:+ command_name) w)
            | Some _ =>
                Continue (calculate_and_display_result num1 num2 command_name
                            commands use_multiprocessing worker w)
            end
        | _ => Continue (print "Usage: <command> <num1> <num2> [mp]" w)
        end
    | _ => Continue (print "Usage: <command> <num1> <num2> [mp]" w)
    end.

(** The loop, fed the lines [input] returns one after the other; when they
    run out [input] raises [EOFError].  [fate n] is what becomes of the
    worker process if turn [n] starts one.  The prompt of [input] is not
    recorded. *)
Fixpoint repl_loop (fate : nat -> Worker) (n : nat) (inputs : list string)
    (w : World) : Run :=
  match inputs with
  | [] => Crashed EOFError w
  | user_input :: inputs' =>
      match repl_turn (fate n) user_input w with
      | Continue w' => repl_loop fate (S n) inputs' w'
      | Break w' => Finished w'
      | Abort e w' => Crashed e w'
      | TurnUnmodelled => RunUnmodelled
      end
  end.

Definition run_repl (fate : nat -> Worker) (inputs : list string) (w : World) : Run :=
  repl_loop fate 0 inputs
    (print "Add 'mp' at the end of a command to use multiprocessing."
       (print "Entering REPL mode. Type 'exit' to quit." w)).

End Repl.

(** [main()], given [sys.argv], the listing of the plugin directory, the
    file system's answers, the lines typed and the fate of the workers. *)
Definition main (frame_repr : DataFrame -> string) (argv : list string)
    (plugins_dir : option (list string)) (disk : Disk) (fate : nat -> Worker)
    (inputs : list string) (w : World) : Run :=
  let commands := load_plugins plugins_dir in
  match argv with
  | [_; num1; num2; operation_type] =>
      Finished (calculate_and_display_result num1 num2 operation_type commands
                  false (fate O) w)
  | [_; num1; num2; operation_type; mp_flag] =>
      Finished (calculate_and_display_result num1 num2 operation_type commands
                  (String.eqb mp_flag "mp") (fate O) w)
  | [_; arg] =>
      if String.eqb arg "repl" then run_repl frame_repr commands disk fate inputs w
      else Finished (print "Usage: python main.py <number1> <number2> <operation> [mp] or python main.py repl" w)
  | _ => Finished (print "Usage: python main.py <number1> <number2> <operation> [mp] or python main.py repl" w)
  end.

(** ** Predicates the properties are stated with *)

(** Every entry of a registry is filed under the operation name of its
    command. *)
Definition keyed_by_name (commands : list (string * Command)) : Prop :=
  forall key c, dict_lookup key commands = Some c -> operation_name c = key.

(** A text file given by its lines, each ended by a line feed. *)
Definition unlines (ls : list string) : string :=
  String.concat "" (map (fun l => l +:+ str [newline]) ls).

(** The fields of the first non-blank line of a text, if it has one: the
    header row of a CSV file. *)
Definition header_row (text : string) : option (list string) :=
  match List.filter (fun l => negb (bool_decide (l = []))) (split_on newline (chars text)) with
  | [] => None
  | header :: _ => Some (map str (split_on comma header))
  end.

(** The binary64 number [f] is exactly the decimal [(-1)^s * c * 10^x]: the
    comparison Python makes for [float == Decimal] on finite numbers. *)
Definition float_is_decimal (f : spec_float) (s : bool) (c : N) (x : Z) : bool :=
  match f with
  | S754_zero _ => (c =? 0)%N
  | S754_finite s' m e =>
      let '(n, d) := Float64.to_ratio m e in
      Bool.eqb s s' && (n * 10 ^ Z.max 0 (- x) =? Z.of_N c * 10 ^ Z.max 0 x * d)
  | _ => false
  end.

(** What an operation can raise. *)
Definition arithmetic_error (e : Exn) : Prop :=
  e = invalid_operation \/ e = Overflow.

(** A row of the history that records a calculation truthfully. *)
Definition truthful_row (r : list Cell) : Prop :=
  exists c n1 n2 res,
    execute c n1 n2 = Ok res
    /\ r = [CStr (operation_name c); CDec n1; CDec n2; CDec res].

Definition truthful_history (df : DataFrame) : Prop :=
  columns df = history_columns /\ Forall truthful_row (rows df).

(** A word: a non-empty text without whitespace. *)
Definition is_word (s : string) : bool :=
  negb (String.eqb s "") && forallb (fun c => negb (is_space c)) (chars s).

(** The plugins of the repository by registry key. *)
Definition repository_plugins : list (string * Command) :=
  [("add", AddCommand); ("subtract", SubtractCommand);
   ("multiply", MultiplyCommand); ("square", SquareCommand);
   ("mean", MeanCommand); ("median", MedianCommand)].


(** A line that is not [latest], does not print the history and neither
    saves nor loads it. *)
Definition safe_line (l : string) : Prop :=
  l <> "latest"
  /\ l <> "history"
  /\ startswith l "save_history" = false
  /\ startswith l "load_history" = false
  /\ startswith l "filter_with_operation" = false.


(** The rows whose operation cell is a given name. *)
Definition operation_is (name : string) (r : list Cell) : bool :=
  match r !! 0%nat with
  | Some (CStr s) => String.eqb s name
  | _ => false
  end.

(** A quiet NaN. *)
Definition is_qnan (d : Decimal) : bool :=
  match d with NaN false _ _ => true | _ => false end.

(** The integer [(-1)^s * c]. *)
Definition signed (s : bool) (c : N) : Z := if s then - Z.of_N c else Z.of_N c.

(** The number a finite decimal denotes, counted in units of [10^m], for an
    exponent [m] not above its own. *)
Definition units (m : Z) (d : Decimal) : Z :=
  match d with
  | Finite s c e => signed s c * 10 ^ (e - m)
  | _ => 0
  end.

(** [r] is exactly half the sum of [a] and [b]: [2 r = a + b], the three
    numbers counted in units of ten to their least exponent. *)
Definition is_half_sum (r a b : Decimal) : Prop :=
  match r, a, b with
  | Finite _ _ e, Finite _ _ e1, Finite _ _ e2 =>
      let m := Z.min e (Z.min e1 e2) in
      2 * units m r = units m a + units m b
  | _, _, _ => False
  end.

(** Operands whose sum and half need no rounding: both finite, their
    coefficients below [10^27] once brought to the smaller exponent, and
    that exponent well inside the range of the context. *)
Definition modest (a b : Decimal) : Prop :=
  match a, b with
  | Finite _ c1 e1, Finite _ c2 e2 =>
      let m := Z.min e1 e2 in
      Z.of_N c1 * 10 ^ (e1 - m) < 10 ^ 27
      /\ Z.of_N c2 * 10 ^ (e2 - m) < 10 ^ 27
      /\ Emin <= m <= Emax - prec
  | _, _ => False
  end.

(** The commands whose [execute] is symmetric in its operands. *)
Definition symmetric_command (c : Command) : bool :=
  match c with
  | AddCommand | MultiplyCommand | MeanCommand | MedianCommand => true
  | SubtractCommand | SquareCommand => false
  end.

(** * Properties *)

(** ** Frames and the history store *)

Section Frames.

Lemma len_concat_record (df : DataFrame) (record : dict) :
  len (concat_record df record) = len df + 1.
Proof.
  unfold len, concat_record; simpl.
  rewrite length_app, length_map; simpl. lia.
Qed.

Lemma imap_same {A : Type} (f : nat -> A -> A) (l : list A) :
  (forall i x, f i x = x) -> imap f l = l.
Proof.
  revert f. induction l as [|x l IH]; intros f Hf; [reflexivity|].
  cbn [imap]. rewrite Hf. f_equal. apply IH. intros i y. apply Hf.
Qed.

(** On a frame with the four history columns, appending a record with the
    four history keys adds one row and nothing else. *)
Lemma concat_record_history (df : DataFrame) (c1 c2 c3 c4 : Cell) :
  columns df = history_columns ->
  concat_record df
    [("operation", c1); ("num1", c2); ("num2", c3); ("result", c4)]
  = mkDataFrame history_columns (rows df ++ [[c1; c2; c3; c4]]).
Proof.
  intros Hcols. unfold concat_record. rewrite Hcols.
  cbn [columns map fst mem existsb String.eqb Ascii.eqb Bool.eqb orb negb
       List.filter app history_columns dict_get List.find snd fmap option_fmap
       option_map default].
  f_equal. f_equal.
  transitivity (map (fun r : list Cell => r) (rows df)); [|apply map_id].
  apply map_ext. intros r. rewrite app_nil_r.
  apply imap_same. intros i x.
  destruct i as [|[|[|[|i]]]]; reflexivity.
Qed.

Lemma index_of_lookup (k : string) (l : list string) (j : nat) :
  index_of k l = Some j -> l !! j = Some k.
Proof.
  revert j. induction l as [|x l IH]; intros j; simpl; [discriminate|].
  destruct (String.eqb_spec x k) as [->|_].
  - intros [= <-]. reflexivity.
  - destruct (index_of k l) as [i|]; [|discriminate].
    intros [= <-]. simpl. apply IH. reflexivity.
Qed.

Lemma index_of_In (k : string) (l : list string) :
  In k l -> exists j, index_of k l = Some j.
Proof.
  induction l as [|x l IH]; simpl; [contradiction|].
  intros Hin. destruct (String.eqb_spec x k) as [->|Hne]; [eauto|].
  destruct Hin as [->|Hin]; [contradiction|].
  destruct (IH Hin) as [j ->]. simpl. eauto.
Qed.

Lemma dict_get_In (k : string) (record : dict) (v : Cell) :
  dict_get k record = Some v -> In k (map fst record).
Proof.
  unfold dict_get. destruct (List.find _ record) as [[k' v']|] eqn:Hfind;
    [|discriminate].
  intros _. apply find_some in Hfind as [Hin Heq].
  apply String.eqb_eq in Heq. simpl in Heq. subst k'.
  apply in_map_iff. exists (k, v'). split; [reflexivity | exact Hin].
Qed.

(** Every key of the record is a column of the new frame. *)
Lemma concat_record_column (df : DataFrame) (record : dict) (k : string) (v : Cell) :
  dict_get k record = Some v -> In k (columns (concat_record df record)).
Proof.
  intros Hget. unfold concat_record; simpl. apply in_app_iff.
  destruct (mem k (columns df)) eqn:Hmem.
  - left. unfold mem in Hmem. apply existsb_exists in Hmem as [x [Hin Heq]].
    apply String.eqb_eq in Heq. subst x. exact Hin.
  - right. apply filter_In. split; [eapply dict_get_In; eassumption|].
    rewrite Hmem. reflexivity.
Qed.

(** The row appended last holds, under each key of the record, the value
    the record has there. *)
Lemma concat_record_iloc (df : DataFrame) (record : dict) (k : string) (v : Cell) :
  dict_get k record = Some v ->
  iloc (concat_record df record) (length (rows df)) k = Some v.
Proof.
  intros Hget.
  destruct (index_of_In k _ (concat_record_column df record k v Hget)) as [j Hj].
  unfold iloc. rewrite Hj. apply index_of_lookup in Hj.
  unfold concat_record in *; simpl in *.
  rewrite lookup_app_r by (rewrite length_map; lia).
  rewrite length_map, Nat.sub_diag. simpl.
  rewrite list_lookup_fmap, Hj. simpl. rewrite Hget. reflexivity.
Qed.

Lemma add_calculation_history (calc : Calculation) (w : World) :
  columns (dataframe w) = history_columns ->
  add_calculation calc w
  = mkWorld
      (mkDataFrame history_columns
         (rows (dataframe w)
            ++ [[CStr (operation_name (operation calc)); CDec (a calc);
                 CDec (b calc); option_cell (result calc)]]))
      (files w) (stdout w).
Proof.
  intros Hcols. unfold add_calculation, add_record, set_dataframe.
  rewrite concat_record_history by assumption. reflexivity.
Qed.

(** The history columns survive every operation except a load. *)
Lemma add_calculation_columns (calc : Calculation) (w : World) :
  columns (dataframe w) = history_columns ->
  columns (dataframe (add_calculation calc w)) = history_columns.
Proof. intros H. rewrite add_calculation_history by assumption. reflexivity. Qed.

Lemma clear_history_empty (w : World) :
  rows (dataframe (clear_history w)) = []
  /\ columns (dataframe (clear_history w)) = columns (dataframe w).
Proof. split; reflexivity. Qed.

Lemma clear_history_idempotent (w : World) :
  clear_history (clear_history w) = clear_history w.
Proof. reflexivity. Qed.

End Frames.

(** ** The commands *)

(** *** The size of a coefficient

    [ndigits] counts the decimal digits of a coefficient, so it brackets the
    coefficient between two powers of ten. *)

Lemma ndigits_nonneg (n : N) : 0 <= ndigits n.
Proof. unfold ndigits. lia. Qed.

Lemma of_uint_acc_bounds (l : Decimal.uint) :
  forall acc : positive,
    Z.pos acc * 10 ^ Z.of_nat (Decimal.nb_digits l) <= Z.pos (Pos.of_uint_acc l acc)
    /\ Z.pos (Pos.of_uint_acc l acc) < (Z.pos acc + 1) * 10 ^ Z.of_nat (Decimal.nb_digits l).
Proof.
  induction l as [|l IH|l IH|l IH|l IH|l IH|l IH|l IH|l IH|l IH|l IH]; intros acc;
    cbn [Pos.of_uint_acc Decimal.nb_digits];
    [change (Z.of_nat 0) with 0; rewrite Z.pow_0_r; lia|..];
    rewrite Nat2Z.inj_succ, Z.pow_succ_r by lia;
    match goal with |- context [Pos.of_uint_acc l ?a] => destruct (IH a) as [Hlo Hhi] end;
    assert (0 < 10 ^ Z.of_nat (Decimal.nb_digits l)) by (apply Z.pow_pos_nonneg; lia);
    split; nia.
Qed.

Lemma ndigits_bounds (n : N) :
  n <> 0%N -> 10 ^ (ndigits n - 1) <= Z.of_N n < 10 ^ ndigits n.
Proof.
  destruct n as [|p]; [contradiction|]. intros _. unfold ndigits.
  change (N.to_uint (N.pos p)) with (Pos.to_uint p).
  pose proof (DecimalPos.Unsigned.of_to p) as Hof.
  pose proof (DecimalPos.Unsigned.to_of (Pos.to_uint p)) as Hto.
  rewrite Hof in Hto. change (N.to_uint (N.pos p)) with (Pos.to_uint p) in Hto.
  pose proof (DecimalPos.Unsigned.to_uint_nonzero p) as Hnz.
  pose proof (DecimalPos.Unsigned.to_uint_nonnil p) as Hnn.
  destruct (Pos.to_uint p) as [|l|l|l|l|l|l|l|l|l|l] eqn:Hd; [contradiction|..];
    try (cbn [Pos.of_uint] in Hof; injection Hof as Hof; rewrite <- Hof;
         cbn [Decimal.nb_digits]; rewrite Nat2Z.inj_succ;
         replace (Z.succ (Z.of_nat (Decimal.nb_digits l)) - 1)
           with (Z.of_nat (Decimal.nb_digits l)) by lia;
         rewrite Z.pow_succ_r by lia;
         match goal with |- context [Pos.of_uint_acc l ?a] =>
           destruct (of_uint_acc_bounds l a) as [Hlo Hhi] end;
         assert (0 < 10 ^ Z.of_nat (Decimal.nb_digits l))
           by (apply Z.pow_pos_nonneg; lia);
         cbn [Z.of_N]; split; nia).
  (* a leading zero *)
  exfalso. unfold Decimal.unorm in Hto. cbn [Decimal.nzhead] in Hto.
  destruct (Decimal.nzhead l) as [|l'|l'|l'|l'|l'|l'|l'|l'|l'|l'] eqn:Hh; try discriminate.
  - injection Hto as ->. apply Hnz. reflexivity.
  - apply (nzhead_nonzero l l'). rewrite Hh. congruence.
Qed.

Lemma ndigits_pos (n : N) : 1 <= ndigits n.
Proof.
  destruct n as [|p]; [vm_compute; discriminate|].
  destruct (ndigits_bounds (N.pos p)) as [_ Hhi]; [discriminate|].
  destruct (Z.le_gt_cases 1 (ndigits (N.pos p))) as [?|Hlt]; [assumption|].
  assert (ndigits (N.pos p) <= 0) as Hle by lia.
  pose proof (ndigits_nonneg (N.pos p)).
  replace (ndigits (N.pos p)) with 0 in Hhi by lia. simpl in Hhi. lia.
Qed.

Lemma ndigits_le (n : N) (k : Z) :
  1 <= k -> Z.of_N n < 10 ^ k -> ndigits n <= k.
Proof.
  intros Hk Hn. destruct (N.eq_dec n 0%N) as [->|Hne]; [change (ndigits 0) with 1; lia|].
  destruct (ndigits_bounds n Hne) as [Hlo _].
  destruct (Z.le_gt_cases (ndigits n) k) as [?|Hgt]; [assumption|].
  exfalso. assert (10 ^ k <= 10 ^ (ndigits n - 1)) by (apply Z.pow_le_mono_r; lia).
  lia.
Qed.

(** *** Sums and halves that need no rounding *)

Lemma fix_finite_exact (s : bool) (c : N) (e : Z) :
  ndigits c <= prec -> Etiny <= e -> e + ndigits c - 1 <= Emax ->
  fix_finite s c e = Ok (Finite s c e).
Proof.
  intros Hd He Hmax. unfold fix_finite.
  destruct (N.eqb_spec c 0) as [->|Hc].
  - change (ndigits 0) with 1 in Hmax. f_equal. f_equal. lia.
  - unfold Etop in *. unfold prec in *.
    destruct (Z.ltb_spec (Emax - 28 + 1) (ndigits c + e - 28)) as [?|_]; [lia|].
    destruct (Z.ltb_spec e (Z.max (ndigits c + e - 28) Etiny)) as [?|_]; [lia|].
    reflexivity.
Qed.

Lemma aligned_digits (c : N) (d : Z) :
  c <> 0%N -> 0 <= d -> Z.of_N c * 10 ^ d < 10 ^ 27 -> ndigits c + d <= 27.
Proof.
  intros Hc Hd Hlt. destruct (ndigits_bounds c Hc) as [Hlo _].
  pose proof (ndigits_pos c) as Hp.
  destruct (Z.le_gt_cases (ndigits c + d) 27) as [?|Hgt]; [assumption|exfalso].
  assert (10 ^ 27 <= 10 ^ (ndigits c - 1 + d)) by (apply Z.pow_le_mono_r; lia).
  rewrite Z.pow_add_r in H by lia.
  assert (0 < 10 ^ d) by (apply Z.pow_pos_nonneg; lia). nia.
Qed.

Lemma Z_of_N_scaled (c : N) (d : Z) :
  0 <= d -> Z.of_N (c * 10 ^ Z.to_N d) = Z.of_N c * 10 ^ d.
Proof.
  intros Hd. rewrite N2Z.inj_mul, N2Z.inj_pow, Z2N.id by lia. reflexivity.
Qed.

Lemma normalize_exact (c1 : N) (e1 : Z) (c2 : N) (e2 : Z) :
  let m := Z.min e1 e2 in
  c1 <> 0%N -> c2 <> 0%N ->
  Z.of_N c1 * 10 ^ (e1 - m) < 10 ^ 27 ->
  Z.of_N c2 * 10 ^ (e2 - m) < 10 ^ 27 ->
  normalize c1 e1 c2 e2
  = ((c1 * 10 ^ Z.to_N (e1 - m), c2 * 10 ^ Z.to_N (e2 - m))%N, m).
Proof.
  intros m H1 H2 Ha Hb. unfold normalize. subst m.
  pose proof (ndigits_pos c1). pose proof (ndigits_pos c2).
  destruct (Z.ltb_spec e1 e2) as [Hlt|Hge]; cbv beta iota zeta.
  - assert (Hm : Z.min e1 e2 = e1) by lia. rewrite Hm in Ha, Hb |- *.
    pose proof (aligned_digits c2 (e2 - e1) H2 ltac:(lia) Hb).
    destruct (Z.ltb_spec (ndigits c1 + e1 - 1)
                (e2 + Z.min (-1) (ndigits c2 - prec - 2))) as [?|_];
      [unfold prec in *; lia|].
    rewrite Z.sub_diag. change (Z.to_N 0) with 0%N. rewrite N.pow_0_r, N.mul_1_r.
    reflexivity.
  - assert (Hm : Z.min e1 e2 = e2) by lia. rewrite Hm in Ha, Hb |- *.
    pose proof (aligned_digits c1 (e1 - e2) H1 ltac:(lia) Ha).
    destruct (Z.ltb_spec (ndigits c2 + e2 - 1)
                (e1 + Z.min (-1) (ndigits c1 - prec - 2))) as [?|_];
      [unfold prec in *; lia|].
    rewrite Z.sub_diag. change (Z.to_N 0) with 0%N. rewrite N.pow_0_r, N.mul_1_r.
    reflexivity.
Qed.

(** The sum of modest operands is exact. *)
Lemma add_exact (s1 : bool) (c1 : N) (e1 : Z) (s2 : bool) (c2 : N) (e2 : Z) :
  let m := Z.min e1 e2 in
  modest (Finite s1 c1 e1) (Finite s2 c2 e2) ->
  exists s c,
    add (Finite s1 c1 e1) (Finite s2 c2 e2) = Ok (Finite s c m)
    /\ signed s c = signed s1 c1 * 10 ^ (e1 - m) + signed s2 c2 * 10 ^ (e2 - m)
    /\ Z.of_N c < 2 * 10 ^ 27.
Proof.
  intros m (Ha & Hb & Hm). fold m in Ha, Hb, Hm.
  assert (Hd1 : 0 <= e1 - m) by (unfold m; lia).
  assert (Hd2 : 0 <= e2 - m) by (unfold m; lia).
  assert (Hfix : forall s c, Z.of_N c < 2 * 10 ^ 27 ->
                   fix_finite s c m = Ok (Finite s c m)).
  { intros s c Hc.
    assert (ndigits c <= 28) by (apply ndigits_le; lia).
    apply fix_finite_exact; cbv [prec Etiny Emin Emax Etop] in *; lia. }
  unfold add. cbn [check_nans]. fold m.
  destruct (N.eqb_spec c1 0) as [->|H1], (N.eqb_spec c2 0) as [->|H2]; cbn [andb].
  - exists (s1 && s2), 0%N. rewrite Hfix by lia.
    split; [reflexivity|]. split; [|lia]. destruct s1, s2; reflexivity.
  - assert (e2 - m <= 26).
    { pose proof (aligned_digits c2 (e2 - m) H2 Hd2 Hb). pose proof (ndigits_pos c2). lia. }
    replace (Z.max m (e2 - prec - 1)) with m by (unfold prec; lia).
    unfold rescale. destruct (N.eqb_spec c2 0) as [?|_]; [contradiction|].
    destruct (Z.leb_spec m e2) as [_|?]; [|lia].
    exists s2, (c2 * 10 ^ Z.to_N (e2 - m))%N.
    rewrite Hfix by (rewrite Z_of_N_scaled by lia; lia).
    split; [reflexivity|]. split; [|rewrite Z_of_N_scaled by lia; lia].
    unfold signed. rewrite Z_of_N_scaled by lia. destruct s1, s2; cbn; lia.
  - assert (e1 - m <= 26).
    { pose proof (aligned_digits c1 (e1 - m) H1 Hd1 Ha). pose proof (ndigits_pos c1). lia. }
    replace (Z.max m (e1 - prec - 1)) with m by (unfold prec; lia).
    unfold rescale. destruct (N.eqb_spec c1 0) as [?|_]; [contradiction|].
    destruct (Z.leb_spec m e1) as [_|?]; [|lia].
    exists s1, (c1 * 10 ^ Z.to_N (e1 - m))%N.
    rewrite Hfix by (rewrite Z_of_N_scaled by lia; lia).
    split; [reflexivity|]. split; [|rewrite Z_of_N_scaled by lia; lia].
    unfold signed. rewrite Z_of_N_scaled by lia. destruct s1, s2; cbn; lia.
  - rewrite (normalize_exact c1 e1 c2 e2 H1 H2 Ha Hb). fold m.
    set (A := (c1 * 10 ^ Z.to_N (e1 - m))%N).
    set (B := (c2 * 10 ^ Z.to_N (e2 - m))%N).
    assert (HA : Z.of_N A = Z.of_N c1 * 10 ^ (e1 - m)) by (apply Z_of_N_scaled; lia).
    assert (HB : Z.of_N B = Z.of_N c2 * 10 ^ (e2 - m)) by (apply Z_of_N_scaled; lia).
    unfold signed. rewrite <- HA in Ha. rewrite <- HB in Hb.
    destruct (Bool.eqb s1 s2) eqn:Hs.
    + apply Bool.eqb_prop in Hs as <-. exists s1, (A + B)%N.
      rewrite Hfix by lia. split; [reflexivity|]. split; [|lia].
      destruct s1; lia.
    + destruct (N.eqb_spec A B) as [Heq|Hne].
      * exists false, 0%N. rewrite Hfix by lia.
        split; [reflexivity|]. split; [|lia].
        destruct s1, s2; try discriminate; lia.
      * destruct (N.ltb_spec A B) as [Hlt|Hge].
        -- exists s2, (B - A)%N. rewrite Hfix by lia.
           split; [reflexivity|]. split; [|lia].
           destruct s1, s2; try discriminate; lia.
        -- exists s1, (A - B)%N. rewrite Hfix by lia.
           split; [reflexivity|]. split; [|lia].
           destruct s1, s2; try discriminate; lia.
Qed.

Lemma strip_zeros (k : nat) :
  forall (fuel : nat) (x : N) (e ideal : Z),
    (k <= fuel)%nat -> e + Z.of_nat k <= ideal ->
    strip_to_ideal fuel (x * 10 ^ N.of_nat k) e ideal
    = strip_to_ideal (fuel - k) x (e + Z.of_nat k) ideal.
Proof.
  induction k as [|k IH]; intros fuel x e ideal Hf He.
  - rewrite Nat.sub_0_r, N.mul_1_r, Z.add_0_r. reflexivity.
  - destruct fuel as [|fuel]; [lia|].
    rewrite Nat2N.inj_succ, N.pow_succ_r'.
    replace (x * (10 * 10 ^ N.of_nat k))%N with (x * 10 ^ N.of_nat k * 10)%N by lia.
    cbn [strip_to_ideal].
    rewrite N.Div0.mod_mul, N.div_mul by discriminate.
    destruct (Z.ltb_spec e ideal) as [_|?]; [|lia].
    cbn [andb N.eqb]. rewrite IH by lia.
    replace (e + 1 + Z.of_nat k) with (e + Z.of_nat (S k)) by lia.
    reflexivity.
Qed.

Lemma ndigits_ge (n : N) (k : Z) :
  1 <= k -> 10 ^ (k - 1) <= Z.of_N n -> k <= ndigits n.
Proof.
  intros Hk Hn.
  assert (n <> 0%N) by (intros ->; pose proof (Z.pow_pos_nonneg 10 (k - 1)); lia).
  pose proof (ndigits_bounds n H) as [_ Hu].
  destruct (Z.le_gt_cases k (ndigits n)) as [?|Hlt]; [assumption|].
  pose proof (ndigits_nonneg n).
  assert (10 ^ ndigits n <= 10 ^ (k - 1)) by (apply Z.pow_le_mono_r; lia).
  lia.
Qed.

(** Halving an exact sum below [2 * 10 ^ 27] is exact: an even coefficient
    is halved in place, an odd one gets one more digit. *)
Lemma truediv_two_exact (s : bool) (c : N) (m : Z) :
  Z.of_N c < 2 * 10 ^ 27 -> Emin <= m <= Emax - prec ->
  truediv (Finite s c m) two
  = Ok (if (c mod 2 =? 0)%N then Finite s (c / 2) m else Finite s (5 * c) (m - 1)).
Proof.
  intros Hc Hm.
  unfold truediv, two. cbn [check_nans]. change (2 =? 0)%N with false.
  cbv iota. rewrite Bool.xorb_false_r, Z.sub_0_r.
  destruct (N.eqb_spec c 0) as [->|Hnz].
  - change (0 mod 2 =? 0)%N with true. change (0 / 2)%N with 0%N.
    unfold fix_finite. change (0 =? 0)%N with true. cbv iota.
    replace (Z.min (Z.max m Etiny) Emax) with m
      by (cbv [prec Etiny Emin Emax] in *; lia).
    reflexivity.
  - pose proof (ndigits_pos c) as Hd1.
    assert (Hd28 : ndigits c <= 28) by (apply ndigits_le; lia).
    set (shift := ndigits 2 - ndigits c + prec + 1).
    assert (Hs : shift = 30 - ndigits c)
      by (subst shift; change (ndigits 2) with 1; unfold prec; lia).
    clearbody shift.
    destruct (Z.leb_spec 0 shift) as [_|?]; [|lia].
    set (k := Z.to_nat (29 - ndigits c)).
    assert (Hshift : Z.to_N shift = N.succ (N.of_nat k)) by (subst k; lia).
    rewrite Hshift, N.pow_succ_r'.
    replace (c * (10 * 10 ^ N.of_nat k))%N with (5 * c * 10 ^ N.of_nat k * 2)%N by lia.
    rewrite N.Div0.mod_mul, N.div_mul by discriminate.
    change (0 =? 0)%N with true. cbv iota.
    assert (Hfuel : (k < Z.to_nat (ndigits (5 * c * 10 ^ N.of_nat k)))%nat).
    { assert (29 <= ndigits (5 * c * 10 ^ N.of_nat k)); [|subst k; lia].
      apply ndigits_ge; [lia|].
      pose proof (ndigits_bounds c Hnz) as [Hl _].
      rewrite !N2Z.inj_mul, N2Z.inj_pow, nat_N_Z.
      change (Z.of_N 5) with 5. change (Z.of_N 10) with 10.
      replace (29 - 1) with ((ndigits c - 1) + Z.of_nat k) by (subst k; lia).
      rewrite Z.pow_add_r by lia.
      pose proof (Z.pow_pos_nonneg 10 (Z.of_nat k)).
      pose proof (Z.pow_pos_nonneg 10 (ndigits c - 1)).
      nia. }
    rewrite strip_zeros by (subst k; lia).
    replace (m - shift + Z.of_nat k) with (m - 1) by (subst k; lia).
    destruct (Z.to_nat (ndigits (5 * c * 10 ^ N.of_nat k)) - k)%nat as [|fuel] eqn:Hf;
      [lia|].
    cbn [strip_to_ideal].
    destruct (Z.ltb_spec (m - 1) m) as [_|?]; [|lia]. cbn [andb].
    assert (Hfix : forall x e, Z.of_N x < 10 ^ 28 -> x <> 0%N -> m - 1 <= e <= m ->
                     fix_finite s x e = Ok (Finite s x e)).
    { intros x e Hx Hx0 He.
      assert (ndigits x <= 28) by (apply ndigits_le; lia).
      apply fix_finite_exact; cbv [prec Etiny Emin Emax] in *; lia. }
    destruct (N.eqb_spec (c mod 2) 0) as [Heven|Hodd].
    + assert (Hc2 : c = (2 * (c / 2))%N).
      { rewrite (N.div_mod c 2) at 1 by discriminate. lia. }
      replace (5 * c)%N with (c / 2 * 10)%N by lia.
      rewrite N.Div0.mod_mul, N.div_mul by discriminate.
      change (0 =? 0)%N with true. cbv iota.
      replace (m - 1 + 1) with m by lia.
      assert (Hstop : strip_to_ideal fuel (c / 2) m m = ((c / 2)%N, m)).
      { destruct fuel; cbn [strip_to_ideal]; [reflexivity|].
        rewrite Z.ltb_irrefl. reflexivity. }
      rewrite Hstop. apply Hfix; lia.
    + assert (Hmod : ((5 * c) mod 10 =? 0)%N = false).
      { apply N.eqb_neq. intro H10. apply Hodd.
        pose proof (N.div_mod (5 * c) 10 ltac:(discriminate)) as E1.
        rewrite H10, N.add_0_r in E1.
        pose proof (N.div_mod c 2 ltac:(discriminate)) as E2.
        pose proof (N.mod_upper_bound c 2 ltac:(discriminate)) as E3.
        revert E1 E2 E3.
        generalize (5 * c / 10)%N, (c / 2)%N, (c mod 2)%N. lia. }
      rewrite Hmod. apply Hfix; lia.
Qed.

Lemma signed_half (s : bool) (c : N) :
  (c mod 2 = 0)%N -> 2 * signed s (c / 2) = signed s c.
Proof.
  intros He. pose proof (N.div_mod c 2 ltac:(discriminate)) as E.
  rewrite He, N.add_0_r in E. unfold signed.
  revert E. generalize (c / 2)%N. intros h E. destruct s; lia.
Qed.

Lemma signed_scaled (s : bool) (c : N) : signed s (5 * c) = 5 * signed s c.
Proof. unfold signed. destruct s; lia. Qed.

(** C6.  For all decimal operands the mean and the median commands have the
    same outcome, a value or an exception.  On modest operands (finite, the
    coefficients below [10^27] at the smaller exponent, that exponent within
    the context's range) both return a number, the same one, and it is
    exactly half the sum of the operands. *)
Theorem mean_median_identical (a b : Decimal) :
  execute MeanCommand a b = execute MedianCommand a b
  /\ (modest a b ->
      exists r : Decimal,
        execute MeanCommand a b = Ok r
        /\ execute MedianCommand a b = Ok r
        /\ is_half_sum r a b).
Proof.
  split; [reflexivity|]. intros Hm.
  destruct a as [s1 c1 e1| |], b as [s2 c2 e2| |]; try contradiction.
  destruct (add_exact s1 c1 e1 s2 c2 e2 Hm) as (s & c & Hadd & Hval & Hlt).
  destruct Hm as (Ha & Hb & Hm).
  set (m := Z.min e1 e2) in *.
  assert (Hd1 : 0 <= e1 - m) by (subst m; lia).
  assert (Hd2 : 0 <= e2 - m) by (subst m; lia).
  exists (if (c mod 2 =? 0)%N then Finite s (c / 2) m else Finite s (5 * c) (m - 1)).
  assert (Hrun : (let* sum := add (Finite s1 c1 e1) (Finite s2 c2 e2) in truediv sum two)
                 = Ok (if (c mod 2 =? 0)%N then Finite s (c / 2) m
                       else Finite s (5 * c) (m - 1))).
  { rewrite Hadd. cbn [bind]. apply truediv_two_exact; assumption. }
  split; [exact Hrun|]. split; [exact Hrun|].
  destruct (N.eqb_spec (c mod 2) 0) as [Heven|Hodd]; cbn [is_half_sum]; fold m.
  - replace (Z.min m m) with m by lia. unfold units.
    rewrite Z.sub_diag, Z.pow_0_r, Z.mul_1_r, signed_half by assumption.
    exact Hval.
  - replace (Z.min (m - 1) m) with (m - 1) by lia. unfold units.
    rewrite Z.sub_diag, Z.pow_0_r, Z.mul_1_r, signed_scaled.
    replace (e1 - (m - 1)) with (1 + (e1 - m)) by lia.
    replace (e2 - (m - 1)) with (1 + (e2 - m)) by lia.
    rewrite !Z.pow_add_r by lia. change (10 ^ 1) with 10. lia.
Qed.

(** The mean and the median of 3 and 4. *)
Lemma mean_median_identical_witness :
  modest (Finite false 3 0) (Finite false 4 0)
  /\ exists r : Decimal,
       execute MeanCommand (Finite false 3 0) (Finite false 4 0) = Ok r
       /\ execute MedianCommand (Finite false 3 0) (Finite false 4 0) = Ok r
       /\ is_half_sum r (Finite false 3 0) (Finite false 4 0).
Proof.
  assert (H : modest (Finite false 3 0) (Finite false 4 0))
    by (cbv [modest]; cbv zeta; repeat apply conj; vm_compute;
        first [reflexivity | discriminate]).
  split; [exact H|].
  exact (proj2 (mean_median_identical (Finite false 3 0) (Finite false 4 0)) H).
Defined.

(** Outside the modest operands the value [(a + b) / 2] is not always what
    the commands give.  The sum of [9E+999999] with itself overflows, so both
    commands raise [Overflow], although half the sum is the operand itself.
    The sum of [1E+28] and [1] is rounded to 28 digits before it is halved,
    so both commands return [5.00000000000000000000000000E+27], and twice
    that is one less than the sum. *)
Lemma mean_not_half_sum :
  (let x := Finite false 9 999999 in
   execute MeanCommand x x = Raise Overflow
   /\ execute MedianCommand x x = Raise Overflow
   /\ is_half_sum x x x)
  /\ (let a := Finite false 1 28 in
      let b := Finite false 1 0 in
      let r := Finite false 500000000000000000000000000 1 in
      execute MeanCommand a b = Ok r
      /\ execute MedianCommand a b = Ok r
      /\ 2 * units 0 r + 1 = units 0 a + units 0 b).
Proof.
  split; cbv zeta; repeat split; vm_compute; reflexivity.
Qed.


(** What the worker leaves on an empty queue when it runs to the end. *)
Lemma run_process_to_end (c : Command) (num1 num2 : Decimal) :
  run_process RunsToEnd (execute_multiprocessing c num1 num2) []
  = match execute c num1 num2 with
    | Ok r => [r]
    | Raise _ => []
    end.
Proof.
  unfold run_process, execute_multiprocessing, bind.
  destruct (execute c num1 num2); reflexivity.
Qed.

Lemma handle_dataframe (value1 value2 : string) (e : Exn) (w : World) :
  dataframe (handle value1 value2 e w) = dataframe w.
Proof. unfold handle. destruct (is_InvalidOperation e); reflexivity. Qed.

Lemma handle_files (value1 value2 : string) (e : Exn) (w : World) :
  files (handle value1 value2 e w) = files w.
Proof. unfold handle. destruct (is_InvalidOperation e); reflexivity. Qed.

Lemma operate_new (num1 num2 : Decimal) (c : Command) :
  operate (new_Calculation num1 num2 c)
  = match execute c num1 num2 with
    | Ok r => Ok (r, mkCalculation num1 num2 c (Some r))
    | Raise e => Raise e
    end.
Proof. unfold operate, bind; simpl. destruct (execute c num1 num2); reflexivity. Qed.

(** The frame after lines 98 to 101 depends on the frame before and on the
    operands only. *)
Lemma record_calculation_dataframe (value1 value2 : string) (num1 num2 : Decimal)
    (c : Command) (w : World) :
  dataframe (record_calculation value1 value2 num1 num2 c w)
  = match execute c num1 num2 with
    | Ok r =>
        concat_record (dataframe w)
          [("operation", CStr (operation_name c)); ("num1", CDec num1);
           ("num2", CDec num2); ("result", CDec r)]
    | Raise _ => dataframe w
    end.
Proof.
  unfold record_calculation. rewrite operate_new.
  destruct (execute c num1 num2); [reflexivity | apply handle_dataframe].
Qed.

(** C8.  For every command and every pair of operands, a worker that runs to
    the end puts on the result channel exactly the value [execute] returns
    (and nothing when [execute] raises); and a dispatch in isolated mode
    leaves the same history as the synchronous dispatch of the same
    request. *)
Theorem isolated_equals_synchronous (c : Command) (num1 num2 : Decimal)
    (value1 value2 key : string) (reg : list (string * Command)) (w : World) :
  (forall q, execute_multiprocessing c num1 num2 q
             = match execute c num1 num2 with
               | Ok r => Ok (q ++ [r])%list
               | Raise e => Raise e
               end)
  /\ run_process RunsToEnd (execute_multiprocessing c num1 num2) []
     = match execute c num1 num2 with
       | Ok r => [r]
       | Raise _ => []
       end
  /\ dataframe (calculate_and_display_result value1 value2 key reg true RunsToEnd w)
     = dataframe (calculate_and_display_result value1 value2 key reg false RunsToEnd w).
Proof.
  split; [|split].
  - intros q. unfold execute_multiprocessing, bind.
    destruct (execute c num1 num2); reflexivity.
  - apply run_process_to_end.
  - unfold calculate_and_display_result.
    destruct (of_string value1) as [n1|e1]; [|reflexivity].
    destruct (of_string value2) as [n2|e2]; [|reflexivity].
    destruct (dict_lookup key reg) as [h|]; [|reflexivity].
    rewrite run_process_to_end.
    destruct (execute h n1 n2) as [r|e] eqn:Hex.
    + rewrite !record_calculation_dataframe, Hex. reflexivity.
    + rewrite record_calculation_dataframe, Hex, handle_dataframe. reflexivity.
Qed.

(** ** The dispatcher *)

Section Dispatcher.

Variables value1 value2 operation_key : string.
Variable operations_dict : list (string * Command).
Variable enable_multiprocessing : bool.
Variable worker : Worker.
Variable w : World.

(** An operand that [Decimal] refuses: a message, and the history as it
    was. *)
Lemma invalid_operand_keeps_history :
  (exists e, of_string value1 = Raise e)
  \/ (exists e, of_string value2 = Raise e) ->
  let w' := calculate_and_display_result value1 value2 operation_key
              operations_dict enable_multiprocessing worker w in
  dataframe w' = dataframe w /\ files w' = files w.
Proof.
  cbv zeta. unfold calculate_and_display_result.
  intros [[e He] | [e He]].
  - rewrite He. split; [apply handle_dataframe | apply handle_files].
  - rewrite He. destruct (of_string value1);
      split; first [apply handle_dataframe | apply handle_files].
Qed.

(** An operation name the registry does not hold: a message, no
    [Calculation], and the history as it was. *)
Lemma unknown_operation_keeps_history :
  dict_lookup operation_key operations_dict = None ->
  let w' := calculate_and_display_result value1 value2 operation_key
              operations_dict enable_multiprocessing worker w in
  dataframe w' = dataframe w /\ files w' = files w.
Proof.
  cbv zeta. unfold calculate_and_display_result. intros Hnone.
  destruct (of_string value1);
    [|split; first [apply handle_dataframe | apply handle_files]].
  destruct (of_string value2);
    [|split; first [apply handle_dataframe | apply handle_files]].
  rewrite Hnone. split; reflexivity.
Qed.

(** An operation that raises on the operands, in either mode and whatever
    becomes of the worker: the history as it was. *)
Lemma raising_operation_keeps_history (num1 num2 : Decimal) (c : Command) (e : Exn) :
  of_string value1 = Ok num1 ->
  of_string value2 = Ok num2 ->
  dict_lookup operation_key operations_dict = Some c ->
  execute c num1 num2 = Raise e ->
  dataframe (calculate_and_display_result value1 value2 operation_key
               operations_dict enable_multiprocessing worker w)
  = dataframe w.
Proof.
  unfold calculate_and_display_result. intros -> -> -> Hex.
  destruct enable_multiprocessing.
  - destruct (run_process _ _ _);
      rewrite record_calculation_dataframe, Hex; reflexivity.
  - rewrite Hex. apply handle_dataframe.
Qed.

(** In isolated mode a worker that was terminated leaves the queue empty;
    the dispatcher prints the failure and goes on to record the
    calculation it computes itself. *)
Lemma terminated_worker_still_records (num1 num2 r : Decimal) (c : Command) :
  of_string value1 = Ok num1 ->
  of_string value2 = Ok num2 ->
  dict_lookup operation_key operations_dict = Some c ->
  execute c num1 num2 = Ok r ->
  calculate_and_display_result value1 value2 operation_key operations_dict
    true Terminated w
  = add_calculation (mkCalculation num1 num2 c (Some r))
      (print "Error: Multiprocessing computation failed." w).
Proof.
  unfold calculate_and_display_result. intros -> -> -> Hex. simpl.
  unfold record_calculation. rewrite operate_new, Hex. reflexivity.
Qed.

End Dispatcher.

(** The registry with every plugin of the repository, in directory order. *)
Lemma load_plugins_all :
  load_plugins (Some ["add_command.py"; "mean_command.py"; "median_command.py";
                      "multiply_command.py"; "square_command.py";
                      "subtract_command.py"; "__init__.py"])
  = [("add", AddCommand); ("mean", MeanCommand); ("median", MedianCommand);
     ("multiply", MultiplyCommand); ("square", SquareCommand);
     ("subtract", SubtractCommand)].
Proof. reflexivity. Qed.

(** C1 (the code departs from the claim).  The dispatch of 5 multiply 6 in
    isolated mode, with the worker terminated before it put a value: the
    dispatcher reports that the computation failed, and the history gains
    the record (multiply, 5, 6, 30) all the same. *)
Theorem isolated_failure_appends_record :
  let w := calculate_and_display_result "5" "6" "multiply"
             (load_plugins (Some ["multiply_command.py"])) true Terminated
             (initial_world ∅) in
  stdout w = ["Error: Multiprocessing computation failed."]
  /\ rows (dataframe (initial_world ∅)) = []
  /\ rows (dataframe w)
     = [[CStr "multiply"; CDec (Finite false 5 0); CDec (Finite false 6 0);
         CDec (Finite false 30 0)]].
Proof. vm_compute. repeat split. Qed.




(** ** Deleting from the history *)


(** The example of the specification: of three records, deleting index 1
    leaves the first and the third at indices 0 and 1. *)
Example delete_middle_of_three (r0 r1 r2 : list Cell) (fs : gmap string string) :
  rows (dataframe (delete_history 1 (mkWorld (mkDataFrame history_columns [r0; r1; r2]) fs [])))
  = [r0; r2].
Proof. reflexivity. Qed.

(** ** Appending to the history *)

(** C10.  [add_calculation] has no failing case.  It always adds one row,
    whose [result] cell is the [result] field of the calculation as it
    stands: the computed decimal after [operate], the missing value (null)
    when [operate] was never called.  On a history with the four history
    columns the row added is the operation name, the two operands and that
    cell, and the rows before it are untouched. *)
Theorem add_calculation_copies_result (calc : Calculation) (w : World) :
  let w' := add_calculation calc w in
  let n := length (rows (dataframe w)) in
  len (dataframe w') = len (dataframe w) + 1
  /\ files w' = files w
  /\ stdout w' = stdout w
  /\ iloc (dataframe w') n "operation" = Some (CStr (operation_name (operation calc)))
  /\ iloc (dataframe w') n "num1" = Some (CDec (a calc))
  /\ iloc (dataframe w') n "num2" = Some (CDec (b calc))
  /\ iloc (dataframe w') n "result"
     = Some (match result calc with Some r => CDec r | None => CNull end)
  /\ (forall (x y : Decimal) (op : Command),
        iloc (dataframe (add_calculation (new_Calculation x y op) w)) n "result"
        = Some CNull)
  /\ (columns (dataframe w) = history_columns ->
      dataframe w'
      = mkDataFrame history_columns
          (rows (dataframe w)
             ++ [[CStr (operation_name (operation calc)); CDec (a calc);
                  CDec (b calc);
                  match result calc with Some r => CDec r | None => CNull end]])).
Proof.
  cbv zeta. unfold add_calculation, add_record, set_dataframe.
  cbn [dataframe files stdout].
  split; [apply len_concat_record|].
  split; [reflexivity|]. split; [reflexivity|].
  repeat (split; [apply concat_record_iloc; reflexivity|]).
  split.
  - intros x y op. apply concat_record_iloc. reflexivity.
  - intros Hcols. apply concat_record_history, Hcols.
Qed.

(** A calculation appended before [operate] on the empty history. *)
Example add_calculation_unoperated :
  rows (dataframe (add_calculation
                     (new_Calculation (Finite false 1 0) (Finite false 3 0) AddCommand)
                     (initial_world ∅)))
  = [[CStr "add"; CDec (Finite false 1 0); CDec (Finite false 3 0); CNull]].
Proof. reflexivity. Qed.

(** ** The plugin registry *)

Section Registry.

Lemma dict_lookup_set {V : Type} (k k' : string) (v : V) (d : list (string * V)) :
  dict_lookup k (dict_set k' v d)
  = if String.eqb k' k then Some v else dict_lookup k d.
Proof.
  induction d as [|[k0 v0] d IH]; simpl.
  - reflexivity.
  - destruct (String.eqb_spec k0 k') as [->|Hne]; simpl.
    + destruct (String.eqb k' k); reflexivity.
    + rewrite IH. destruct (String.eqb_spec k0 k) as [->|Hne'].
      * destruct (String.eqb_spec k' k) as [->|_]; [contradiction | reflexivity].
      * reflexivity.
Qed.

(** In each plugin module the class the loader asks for, named after the
    file, is the command whose operation name is the file's stem. *)
Lemma plugin_class_name (module_name : string) (module : list (string * Command))
    (c : Command) :
  import_module ("calculator.plugins." +:+ module_name) = Some module ->
  getattr module (capitalize (drop_last 8 module_name) +:+ "Command") = Some c ->
  operation_name c = drop_last 8 module_name.
Proof.
  unfold import_module, plugin_modules. cbn [dict_lookup].
  repeat
    (match goal with
     | |- context [String.eqb ?x ?y] =>
         destruct (String.eqb_spec x y) as [Heq|_];
         [ cbv [String.append] in Heq; injection Heq as <-;
           intros [= <-]; vm_compute; intros [= <-]; reflexivity | ]
     end).
  discriminate.
Qed.

Lemma load_plugin_keyed (commands : list (string * Command)) (filename : string) :
  keyed_by_name commands -> keyed_by_name (load_plugin commands filename).
Proof.
  intros Hinv. unfold load_plugin.
  destruct (endswith filename "_command.py"); [|exact Hinv].
  destruct (import_module _) as [module|] eqn:Himp; [|exact Hinv].
  destruct (getattr module _) as [cls|] eqn:Hattr; [|exact Hinv].
  intros key c. rewrite dict_lookup_set.
  destruct (String.eqb_spec (drop_last 8 (drop_last 3 filename)) key) as [<-|_].
  - intros [= <-]. eapply plugin_class_name; eassumption.
  - apply Hinv.
Qed.

Lemma fold_load_plugin_keyed (listing : list string) (commands : list (string * Command)) :
  keyed_by_name commands -> keyed_by_name (fold_left load_plugin listing commands).
Proof.
  revert commands. induction listing as [|f fs IH]; intros commands Hinv; simpl.
  - exact Hinv.
  - apply IH, load_plugin_keyed, Hinv.
Qed.

Lemma load_plugins_keyed (plugins_dir : option (list string)) :
  keyed_by_name (load_plugins plugins_dir).
Proof.
  destruct plugins_dir as [listing|]; simpl.
  - apply fold_load_plugin_keyed. intros key c; discriminate.
  - intros key c; discriminate.
Qed.

End Registry.

(** C9.  Whatever the plugin directory lists, every entry of the registry
    the loader builds is stored under the [operation_name] of its command;
    hence a dispatch either leaves the history as it was or appends a record
    whose operation field is the name the caller asked for. *)
Theorem registry_key_is_operation_name (plugins_dir : option (list string)) :
  (forall key c,
     dict_lookup key (load_plugins plugins_dir) = Some c -> operation_name c = key)
  /\ (forall (value1 value2 key : string) (mp : bool) (worker : Worker) (w : World),
        let w' := calculate_and_display_result value1 value2 key
                    (load_plugins plugins_dir) mp worker w in
        dataframe w' = dataframe w
        \/ exists num1 num2 r,
             dataframe w'
             = concat_record (dataframe w)
                 [("operation", CStr key); ("num1", CDec num1);
                  ("num2", CDec num2); ("result", CDec r)]).
Proof.
  split; [apply load_plugins_keyed|].
  intros value1 value2 key mp worker w. cbv zeta.
  unfold calculate_and_display_result.
  destruct (of_string value1) as [n1|e1]; [|left; apply handle_dataframe].
  destruct (of_string value2) as [n2|e2]; [|left; apply handle_dataframe].
  destruct (dict_lookup key (load_plugins plugins_dir)) as [h|] eqn:Hreg;
    [|left; reflexivity].
  apply load_plugins_keyed in Hreg.
  assert (Hrec : forall line,
             dataframe (record_calculation value1 value2 n1 n2 h (print line w))
             = dataframe w
             \/ exists num1 num2 r,
                  dataframe (record_calculation value1 value2 n1 n2 h (print line w))
                  = concat_record (dataframe w)
                      [("operation", CStr key); ("num1", CDec num1);
                       ("num2", CDec num2); ("result", CDec r)]).
  { intros line. rewrite record_calculation_dataframe.
    destruct (execute h n1 n2) as [r|e]; [|left; reflexivity].
    right. exists n1, n2, r. rewrite Hreg. reflexivity. }
  destruct mp.
  - destruct (run_process _ _ _); apply Hrec.
  - destruct (execute h n1 n2) as [r|e]; [apply Hrec | left; apply handle_dataframe].
Qed.

(** The registry keys of the repository's plugins and their names. *)
Example registry_names :
  map (fun kc => (fst kc, operation_name (snd kc)))
      (load_plugins (Some ["subtract_command.py"; "square_command.py";
                           "median_command.py"]))
  = [("subtract", "subtract"); ("square", "square"); ("median", "median")].
Proof. reflexivity. Qed.

(** ** Loading and saving the history *)

Section Persistence.

Lemma read_csv_header (text : string) (df : DataFrame) :
  read_csv text = Returns df -> header_row text = Some (columns df).
Proof.
  unfold read_csv, header_row.
  destruct (negb (forallb modelled_char (chars text))); [discriminate|].
  destruct (List.filter _ (split_on newline (chars text))) as [|header data];
    [discriminate|].
  cbv zeta.
  destruct (_ || _); [discriminate|].
  destruct (mapM _ _); [|discriminate].
  intros [= <-]. reflexivity.
Qed.

(** The only exception of the modelled reader is the one for a file
    without any line. *)
Lemma read_csv_raises (text : string) (e : Exn) :
  read_csv text = Raises e -> e = EmptyDataError /\ header_row text = None.
Proof.
  unfold read_csv, header_row.
  destruct (negb (forallb modelled_char (chars text))); [discriminate|].
  destruct (List.filter _ (split_on newline (chars text))) as [|header data].
  - intros [= <-]. split; reflexivity.
  - cbv zeta. destruct (_ || _); [discriminate|].
    destruct (mapM _ _); discriminate.
Qed.

End Persistence.

(** C5, as amended.  [load_history] raises [FileNotFoundError] for a path
    that holds no file, and the REPL then prints that the file was not found
    and keeps the history.  For a file that pandas parses, the frame read
    replaces the whole history, whatever the history was and whatever the
    header row says: the labels of the new frame are the fields of the
    file's first non-blank line.  The only failure on an existing file is
    that of a file with no line, [EmptyDataError]; the header is never
    compared with the history columns. *)
Theorem load_history_replaces (filepath : string) (w : World) :
  (files w !! filepath = None ->
     load_history filepath w = Raises (FileNotFoundError filepath)
     /\ repl_load_history filepath w
        = Returns (print ("File not found: " +:+ filepath) w))
  /\ (forall text df,
        files w !! filepath = Some text ->
        read_csv text = Returns df ->
        load_history filepath w = Returns (mkWorld df (files w) (stdout w))
        /\ header_row text = Some (columns df)
        /\ repl_load_history filepath w
           = Returns (mkWorld df (files w)
                        (stdout w ++ ["History loaded from " +:+ filepath +:+ "."])))
  /\ (forall text e,
        files w !! filepath = Some text ->
        read_csv text = Raises e ->
        load_history filepath w = Raises e
        /\ e = EmptyDataError /\ header_row text = None).
Proof.
  unfold repl_load_history, load_history, load_from_file.
  split; [|split].
  - intros ->. split; reflexivity.
  - intros text df -> Hread. rewrite Hread. repeat split.
    apply read_csv_header, Hread.
  - intros text e -> Hread. rewrite Hread. split; [reflexivity|].
    apply read_csv_raises, Hread.
Qed.

(** C5, as stated, fails: a file whose header row is [a,b] is loaded without
    any error, and its one record replaces the record the history held. *)
Lemma load_history_foreign_header :
  let text := unlines ["a,b"; "x,y"] in
  let w := mkWorld
             (mkDataFrame history_columns
                [[CStr "add"; CDec (Finite false 3 0); CDec (Finite false 4 0);
                  CDec (Finite false 7 0)]])
             {["other.csv" := text]} [] in
  header_row text = Some ["a"; "b"]
  /\ load_history "other.csv" w
     = Returns (mkWorld (mkDataFrame ["a"; "b"] [[CStr "x"; CStr "y"]])
                  {["other.csv" := text]} []).
Proof. vm_compute. split; reflexivity. Qed.

(** No power of two is a multiple of five. *)
Lemma five_not_dividing_pow2 (k : nat) : ~ (5 | 2 ^ Z.of_nat k).
Proof.
  induction k as [|k IH].
  - intros [q Hq]. simpl in Hq. lia.
  - rewrite Nat2Z.inj_succ, Z.pow_succ_r by lia. intros Hdiv.
    apply IH. apply Z.gauss with (m := 2); [exact Hdiv | reflexivity].
Qed.

(** No binary64 number is the decimal 0.1, however a reader rounds. *)
Lemma no_float_is_one_tenth (f : spec_float) : float_is_decimal f false 1 (-1) = false.
Proof.
  destruct f as [s| s| |s m e]; try reflexivity.
  unfold float_is_decimal, Float64.to_ratio.
  destruct s; [destruct (0 <=? e); reflexivity|].
  destruct (Z.leb_spec 0 e) as [He|He]; cbn [Bool.eqb andb].
  - apply Z.eqb_neq. change (10 ^ Z.max 0 (- -1)) with 10.
    change (Z.of_N 1 * 10 ^ Z.max 0 (-1) * 1) with 1.
    assert (0 < 2 ^ e) by (apply Z.pow_pos_nonneg; lia). nia.
  - apply Z.eqb_neq. change (10 ^ Z.max 0 (- -1)) with 10.
    change (Z.of_N 1 * 10 ^ Z.max 0 (-1)) with 1.
    intros Heq. apply (five_not_dividing_pow2 (Z.to_nat (- e))).
    rewrite Z2Nat.id by lia. exists (2 * Z.pos m). lia.
Qed.

(** C3 (the code departs from the claim).  A history holding the record of
    0.1 add 0.2 is saved, cleared and loaded again.  The file holds the
    decimals as text; the load reads them back as binary64 numbers, so the
    history after the load is not the history before the save: its numeric
    fields are floats, and no float is the decimal 0.1. *)
Theorem save_clear_load_changes_record :
  let w0 := calculate_and_display_result "0.1" "0.2" "add"
              (load_plugins (Some ["add_command.py"])) false RunsToEnd
              (initial_world ∅) in
  let ws := mkWorld (dataframe w0)
              {["history.csv" := unlines ["operation,num1,num2,result";
                                          "add,0.1,0.2,0.3"]]}
              (stdout w0) in
  let w1 := clear_history ws in
  save_history writable "history.csv" w0 = Done ws
  /\ rows (dataframe w0)
     = [[CStr "add"; CDec (Finite false 1 (-1)); CDec (Finite false 2 (-1));
         CDec (Finite false 3 (-1))]]
  /\ files w1 !! "history.csv"
     = Some (unlines ["operation,num1,num2,result"; "add,0.1,0.2,0.3"])
  /\ rows (dataframe w1) = []
  /\ (exists w2,
        load_history "history.csv" w1 = Returns w2
        /\ rows (dataframe w2)
           = [[CStr "add";
               CFloat (S754_finite false 7205759403792794 (-56));
               CFloat (S754_finite false 7205759403792794 (-55));
               CFloat (S754_finite false 5404319552844595 (-54))]])
  /\ (forall f : spec_float, float_is_decimal f false 1 (-1) = false).
Proof.
  cbv zeta. split; [vm_compute; reflexivity|].
  split; [vm_compute; reflexivity|].
  split; [vm_compute; reflexivity|].
  split; [reflexivity|].
  split; [|exact no_float_is_one_tenth].
  eexists. split; vm_compute; reflexivity.
Qed.

(** A history of integers only survives the same round trip in value, but
    comes back as int64 numbers instead of decimals. *)
Example save_clear_load_integers :
  let w0 := calculate_and_display_result "2" "3" "add"
              (load_plugins (Some ["add_command.py"])) false RunsToEnd
              (initial_world ∅) in
  option_map (fun w => rows (dataframe w))
    (match save_history writable "history.csv" w0 with
     | Done ws =>
         match load_history "history.csv" (clear_history ws) with
         | Returns w2 => Some w2
         | _ => None
         end
     | Failed _ _ => None
     end)
  = Some [[CStr "add"; CInt 2; CInt 3; CInt 5]].
Proof. vm_compute. reflexivity. Qed.

(** ** The scenarios of the specification, run on the model *)

(** [3 add 4] gives 7 and a history of one record; an unknown operation and
    an unreadable operand are then reported and leave that history alone. *)
Example scenario_add_then_failures :
  let reg := load_plugins (Some ["add_command.py"; "multiply_command.py"]) in
  let w1 := calculate_and_display_result "3" "4" "add" reg false RunsToEnd
              (initial_world ∅) in
  let w2 := calculate_and_display_result "3" "4" "bogus_op" reg false RunsToEnd w1 in
  let w3 := calculate_and_display_result "x" "4" "add" reg false RunsToEnd w2 in
  len (dataframe w1) = 1
  /\ dataframe w2 = dataframe w1
  /\ dataframe w3 = dataframe w1
  /\ stdout w3
     = ["The result of 3 add 4 is 7";
        "Unknown operation type: bogus_op";
        "Invalid input detected. 'x' or '4' is not a valid number."].
Proof. vm_compute. repeat split. Qed.

(** [5 multiply 6] in isolated mode, the worker running to its end: 30, as
    in synchronous mode. *)
Example scenario_isolated_multiply :
  let reg := load_plugins (Some ["multiply_command.py"]) in
  let iso := calculate_and_display_result "5" "6" "multiply" reg true RunsToEnd
               (initial_world ∅) in
  let syn := calculate_and_display_result "5" "6" "multiply" reg false RunsToEnd
               (initial_world ∅) in
  stdout iso = ["The result of 5 multiply 6 (multiprocessing) is 30"]
  /\ stdout syn = ["The result of 5 multiply 6 is 30"]
  /\ dataframe iso = dataframe syn.
Proof. vm_compute. repeat split. Qed.

(** Mean and median of 3 and 4, and the square of 1.5 beside any second
    operand. *)
Example scenario_mean_median_square :
  execute MeanCommand (Finite false 3 0) (Finite false 4 0) = Ok (Finite false 35 (-1))
  /\ execute MedianCommand (Finite false 3 0) (Finite false 4 0) = Ok (Finite false 35 (-1))
  /\ execute SquareCommand (Finite false 15 (-1)) (NaN true false 0)
     = Ok (Finite false 225 (-2)).
Proof. vm_compute. repeat split. Qed.

(** Two [add] records around a [subtract] record: the filter returns the
    two, in order, and the history is not touched by it. *)
Example scenario_filter :
  let reg := load_plugins (Some ["add_command.py"; "subtract_command.py"]) in
  let w1 := calculate_and_display_result "2" "3" "add" reg false RunsToEnd
              (initial_world ∅) in
  let w2 := calculate_and_display_result "5" "3" "subtract" reg false RunsToEnd w1 in
  let w3 := calculate_and_display_result "1" "1" "add" reg false RunsToEnd w2 in
  option_map rows
    (match filter_with_operation "add" w3 with Ok df => Some df | Raise _ => None end)
  = Some [[CStr "add"; CDec (Finite false 2 0); CDec (Finite false 3 0);
           CDec (Finite false 5 0)];
          [CStr "add"; CDec (Finite false 1 0); CDec (Finite false 1 0);
           CDec (Finite false 2 0)]].
Proof. vm_compute. reflexivity. Qed.

(** * Further properties of the code *)

(** ** Text *)

Lemma chars_append (s t : string) : chars (s +:+ t) = (chars s ++ chars t)%list.
Proof.
  unfold chars. induction s as [|c s IH]; simpl; [reflexivity|].
  f_equal. exact IH.
Qed.

Lemma str_chars (s : string) : str (chars s) = s.
Proof. apply string_of_list_ascii_of_string. Qed.

Lemma chars_cons (c : ascii) (s : string) : chars (String c s) = c :: chars s.
Proof. reflexivity. Qed.

Lemma length_chars (s : string) : String.length s = length (chars s).
Proof. induction s as [|c s IH]; simpl; [reflexivity | f_equal; exact IH]. Qed.

Lemma append_String (c : ascii) (s t : string) :
  String c s +:+ t = String c (s +:+ t).
Proof. reflexivity. Qed.

(** ** The arithmetic of the commands *)

Lemma fix_finite_cases (s : bool) (c : N) (e : Z) :
  fix_finite s c e = Raise Overflow
  \/ exists c' e', fix_finite s c e = Ok (Finite s c' e').
Proof.
  unfold fix_finite.
  destruct (c =? 0)%N; [right; eauto|].
  destruct (Etop <? _); [left; reflexivity|].
  destruct (e <? _); [|right; eauto].
  destruct (prec <? _); cbv zeta beta iota; destruct (Etop <? _); eauto.
Qed.

Ltac fix_case s c e :=
  let H := fresh in
  destruct (fix_finite_cases s c e) as [H | (? & ? & H)]; rewrite H.

Lemma add_finite (s1 : bool) (c1 : N) (e1 : Z) (s2 : bool) (c2 : N) (e2 : Z) :
  add (Finite s1 c1 e1) (Finite s2 c2 e2) = Raise Overflow
  \/ exists s c e, add (Finite s1 c1 e1) (Finite s2 c2 e2) = Ok (Finite s c e).
Proof.
  unfold add. cbn [check_nans].
  repeat match goal with
  | |- context [if ?b then _ else _] => destruct b
  | |- context [let '(_, _) := ?p in _] => destruct p as [[? ?] ?]
  end;
  match goal with
  | |- context [fix_finite ?s ?c ?e] =>
      destruct (fix_finite_cases s c e) as [H | (? & ? & H)]; rewrite H; eauto
  end.
Qed.

Ltac split_ifs :=
  repeat (cbv beta iota zeta;
          match goal with
          | |- context [if ?b then _ else _] => destruct b
          | |- context [match ?p with pair _ _ => _ end] => destruct p
          end).

Ltac solve_fix :=
  match goal with
  | |- context [fix_finite ?s ?c ?e] =>
      let H := fresh in
      destruct (fix_finite_cases s c e) as [H | (? & ? & H)]; rewrite H; eauto
  | _ => eauto
  end.

Ltac raise_cases :=
  unfold arithmetic_error;
  split_ifs;
  first
    [ discriminate
    | intros [= <-]; eauto; fail
    | match goal with
      | |- context [fix_finite ?s ?c ?e] =>
          let H := fresh in
          destruct (fix_finite_cases s c e) as [H | (? & ? & H)]; rewrite H;
          first [discriminate | intros [= <-]; eauto]
      end ].

Lemma add_raises (a b : Decimal) (e : Exn) :
  add a b = Raise e -> arithmetic_error e.
Proof.
  unfold add.
  destruct a as [s1 c1 e1|s1|g1 s1 p1], b as [s2 c2 e2|s2|g2 s2 p2];
    try destruct g1; try destruct g2; cbn [check_nans]; raise_cases.
Qed.

Lemma sub_raises (a b : Decimal) (e : Exn) :
  sub a b = Raise e -> arithmetic_error e.
Proof.
  unfold sub. destruct (check_nans a b) as [r|] eqn:Hn.
  - intros ->. unfold arithmetic_error.
    destruct a as [s1 c1 e1|s1|g1 s1 p1], b as [s2 c2 e2|s2|g2 s2 p2];
      try destruct g1; try destruct g2; cbn [check_nans] in Hn;
      try discriminate; injection Hn as [= <-]; eauto.
  - apply add_raises.
Qed.

Lemma mul_raises (a b : Decimal) (e : Exn) :
  mul a b = Raise e -> arithmetic_error e.
Proof.
  unfold mul.
  destruct a as [s1 c1 e1|s1|g1 s1 p1], b as [s2 c2 e2|s2|g2 s2 p2];
    try destruct g1; try destruct g2; cbn [check_nans]; raise_cases.
Qed.

Lemma truediv_two_raises (a : Decimal) (e : Exn) :
  truediv a two = Raise e -> arithmetic_error e.
Proof.
  unfold truediv, two.
  destruct a as [s1 c1 e1|s1|g1 s1 p1];
    try destruct g1; cbn [check_nans];
    try change (2 =? 0)%N with false; cbv iota; raise_cases.
Qed.

Lemma mul_finite (s1 : bool) (c1 : N) (e1 : Z) (s2 : bool) (c2 : N) (e2 : Z) :
  mul (Finite s1 c1 e1) (Finite s2 c2 e2) = Raise Overflow
  \/ exists c e, mul (Finite s1 c1 e1) (Finite s2 c2 e2) = Ok (Finite (xorb s1 s2) c e).
Proof. unfold mul. cbn [check_nans]. apply fix_finite_cases. Qed.

Lemma truediv_two_finite (s1 : bool) (c1 : N) (e1 : Z) :
  truediv (Finite s1 c1 e1) two = Raise Overflow
  \/ exists c e, truediv (Finite s1 c1 e1) two = Ok (Finite s1 c e).
Proof.
  unfold truediv, two. cbn [check_nans]. change (2 =? 0)%N with false.
  rewrite xorb_false_r. split_ifs; apply fix_finite_cases.
Qed.

(** X1.  Whatever the command and the operands, [execute] raises nothing
    but [decimal.InvalidOperation] or [decimal.Overflow]; in particular no
    command divides by zero. *)
Theorem execute_raises_only (c : Command) (num1 num2 : Decimal) (e : Exn) :
  execute c num1 num2 = Raise e ->
  e = InvalidOperation "[<class 'decimal.InvalidOperation'>]" \/ e = Overflow.
Proof.
  destruct c; cbn [execute]; unfold bind.
  - apply add_raises.
  - apply sub_raises.
  - apply mul_raises.
  - apply mul_raises.
  - destruct (add num1 num2) eqn:Ha.
    + apply truediv_two_raises.
    + intros [= <-]. eapply add_raises; eassumption.
  - destruct (add num1 num2) eqn:Ha.
    + apply truediv_two_raises.
    + intros [= <-]. eapply add_raises; eassumption.
Qed.

Lemma execute_raises_only_witness :
  execute AddCommand (Infinity false) (Infinity true) = Raise invalid_operation
  /\ (invalid_operation = InvalidOperation "[<class 'decimal.InvalidOperation'>]"
      \/ invalid_operation = Overflow).
Proof.
  split; [reflexivity|].
  apply (execute_raises_only AddCommand (Infinity false) (Infinity true)).
  reflexivity.
Defined.

(** X2.  On two finite operands every command returns a finite number or
    raises [Overflow]: no infinity, no NaN and no [InvalidOperation] comes
    out of finite operands. *)
Theorem execute_finite (c : Command) (s1 : bool) (c1 : N) (e1 : Z)
    (s2 : bool) (c2 : N) (e2 : Z) :
  execute c (Finite s1 c1 e1) (Finite s2 c2 e2) = Raise Overflow
  \/ exists s c' e', execute c (Finite s1 c1 e1) (Finite s2 c2 e2) = Ok (Finite s c' e').
Proof.
  destruct c; cbn [execute]; unfold bind.
  - apply add_finite.
  - unfold sub. cbn [check_nans copy_negate]. apply add_finite.
  - destruct (mul_finite s1 c1 e1 s2 c2 e2) as [H | (? & ? & H)]; rewrite H; eauto.
  - destruct (mul_finite s1 c1 e1 s1 c1 e1) as [H | (? & ? & H)]; rewrite H; eauto.
  - destruct (add_finite s1 c1 e1 s2 c2 e2) as [H | (s & c & e & H)]; rewrite H; [eauto|].
    destruct (truediv_two_finite s c e) as [H' | (? & ? & H')]; rewrite H'; eauto.
  - destruct (add_finite s1 c1 e1 s2 c2 e2) as [H | (s & c & e & H)]; rewrite H; [eauto|].
    destruct (truediv_two_finite s c e) as [H' | (? & ? & H')]; rewrite H'; eauto.
Qed.

(** X3.  The square of an operand that is no NaN is never negative: the
    result is a finite number with the plus sign or plus infinity, whatever
    the second operand. *)
Theorem square_never_negative (num1 num2 r : Decimal) :
  execute SquareCommand num1 num2 = Ok r ->
  (exists signaling s p, num1 = NaN signaling s p)
  \/ (exists c e, r = Finite false c e)
  \/ r = Infinity false.
Proof.
  cbn [execute]. destruct num1 as [s c e|s|g s p]; [| |eauto].
  - destruct (mul_finite s c e s c e) as [H | (c' & e' & H)]; rewrite H;
      [discriminate|]. intros [= <-]. rewrite xorb_nilpotent. eauto.
  - unfold mul. cbn [check_nans]. intros [= <-]. rewrite xorb_nilpotent. auto.
Qed.

Lemma square_never_negative_witness :
  execute SquareCommand (Finite true 3 0) (Infinity true) = Ok (Finite false 9 0)
  /\ ((exists signaling s p, Finite true 3 0 = NaN signaling s p)
      \/ (exists c e, Finite false 9 0 = Finite false c e)
      \/ Finite false 9 0 = Infinity false).
Proof.
  split; [reflexivity|].
  apply (square_never_negative (Finite true 3 0) (Infinity true) (Finite false 9 0)).
  reflexivity.
Defined.

Lemma normalize_swap (c1 : N) (e1 : Z) (c2 : N) (e2 : Z) :
  normalize c2 e2 c1 e1
  = let '((n1, n2), ne) := normalize c1 e1 c2 e2 in ((n2, n1), ne).
Proof.
  unfold normalize.
  destruct (Z.ltb_spec e1 e2) as [H12|H12]; destruct (Z.ltb_spec e2 e1) as [H21|H21];
    try lia; cbv zeta beta iota.
  - destruct (_ <? _); reflexivity.
  - destruct (_ <? _); reflexivity.
  - assert (e1 = e2) as -> by lia.
    pose proof (ndigits_nonneg c1). pose proof (ndigits_nonneg c2).
    destruct (Z.ltb_spec (ndigits c2 + e2 - 1) (e2 + Z.min (-1) (ndigits c1 - prec - 2)));
      [lia|].
    destruct (Z.ltb_spec (ndigits c1 + e2 - 1) (e2 + Z.min (-1) (ndigits c2 - prec - 2)));
      [lia|].
    rewrite Z.sub_diag. cbn [Z.to_N N.pow]. rewrite !N.mul_1_r. reflexivity.
Qed.

Lemma bool_eqb_sym (x y : bool) : Bool.eqb x y = Bool.eqb y x.
Proof. destruct x, y; reflexivity. Qed.

Lemma decimal_add_comm (a b : Decimal) :
  is_qnan a && is_qnan b = false -> add a b = add b a.
Proof.
  destruct a as [s1 c1 e1|sa|[|] sa pa], b as [s2 c2 e2|sb|[|] sb pb];
    cbn [is_qnan andb]; intros Hq; try discriminate; try reflexivity.
  - (* finite + finite *)
    unfold add. cbn [check_nans]. rewrite (Z.min_comm e2 e1).
    destruct (N.eqb_spec c1 0) as [->|H1], (N.eqb_spec c2 0) as [->|H2]; cbn [andb].
    + rewrite (andb_comm s2 s1). reflexivity.
    + reflexivity.
    + reflexivity.
    + rewrite (normalize_swap c1 e1 c2 e2).
      destruct (normalize c1 e1 c2 e2) as [[n1 n2] ne].
      rewrite (bool_eqb_sym s2 s1). destruct (Bool.eqb s1 s2) eqn:Hs.
      * apply Bool.eqb_prop in Hs as ->. rewrite N.add_comm. reflexivity.
      * rewrite (N.eqb_sym n2 n1).
        destruct (N.eqb_spec n1 n2) as [->|Hn]; [reflexivity|].
        destruct (N.ltb_spec n1 n2), (N.ltb_spec n2 n1); try reflexivity; lia.
  - (* infinity + infinity *)
    unfold add. cbn [check_nans]. rewrite (bool_eqb_sym sb sa).
    destruct (Bool.eqb sa sb) eqn:Hs; [|reflexivity].
    apply Bool.eqb_prop in Hs as ->. reflexivity.
Qed.

Lemma decimal_mul_comm (a b : Decimal) :
  is_qnan a && is_qnan b = false -> mul a b = mul b a.
Proof.
  destruct a as [s1 c1 e1|sa|[|] sa pa], b as [s2 c2 e2|sb|[|] sb pb];
    cbn [is_qnan andb]; intros Hq; try discriminate; try reflexivity;
    unfold mul; cbn [check_nans]; rewrite ?(xorb_comm s2 s1), ?(xorb_comm sb sa),
      ?(xorb_comm s2 sa), ?(xorb_comm sb s1); try reflexivity.
  rewrite (N.mul_comm c2 c1), (Z.add_comm e2 e1). reflexivity.
Qed.

(** X4.  [add], [multiply], [mean] and [median] have the same outcome,
    value or exception, whichever way round the operands are given, unless
    both operands are quiet NaNs (the first one is then the result). *)
Theorem symmetric_commands_commute (c : Command) (a b : Decimal) :
  symmetric_command c = true ->
  is_qnan a && is_qnan b = false ->
  execute c a b = execute c b a.
Proof.
  intros Hc Hq. destruct c; try discriminate; cbn [execute].
  - apply decimal_add_comm, Hq.
  - apply decimal_mul_comm, Hq.
  - rewrite (decimal_add_comm a b Hq). reflexivity.
  - rewrite (decimal_add_comm a b Hq). reflexivity.
Qed.

Lemma symmetric_commands_commute_witness :
  execute MeanCommand (Finite false 1 0) (Finite true 25 (-1))
  = execute MeanCommand (Finite true 25 (-1)) (Finite false 1 0).
Proof.
  apply (symmetric_commands_commute MeanCommand (Finite false 1 0) (Finite true 25 (-1)));
    reflexivity.
Defined.

(** With two quiet NaNs the first operand decides. *)
Example quiet_nans_do_not_commute :
  execute AddCommand (NaN false false 1) (NaN false false 2) = Ok (NaN false false 1)
  /\ execute AddCommand (NaN false false 2) (NaN false false 1) = Ok (NaN false false 2).
Proof. split; reflexivity. Qed.

(** ** The dispatcher *)

Lemma parse_number_raises (sign : bool) (s : list ascii) (e : Exn) :
  parse_number sign s = Raise e -> is_InvalidOperation e = true.
Proof.
  unfold parse_number.
  destruct (span_digits s) as [ip ai].
  destruct (match ai with "."%char :: r => span_digits r | _ => ([], ai) end) as [fp af].
  destruct (ip ++ fp)%list; [intros [= <-]; reflexivity|].
  destruct (parse_exponent af); [|intros [= <-]; reflexivity].
  cbv zeta. match goal with |- context [if ?b then Ok _ else _] => destruct b end;
    [discriminate | intros [= <-]; reflexivity].
Qed.

Lemma parse_special_raises (sign : bool) (s : list ascii) (e : Exn) :
  parse_special sign s = Raise e -> is_InvalidOperation e = true.
Proof.
  unfold parse_special. cbv zeta.
  destruct (_ || _); [discriminate|].
  match goal with |- context [let '(_, _) := ?p in _] => destruct p as [sg body] end.
  repeat (match goal with
          | |- context [match ?l with [] => _ | _ :: _ => _ end] => destruct l
          | |- context [match ?l with Ascii _ _ _ _ _ _ _ _ => _ end] => destruct l
          | |- context [if ?b then _ else _] => destruct b
          | |- context [let '(_, _) := ?p in _] => destruct p
          end; try (intros [= <-]; reflexivity); try discriminate).
Qed.

Lemma of_string_raises (value : string) (e : Exn) :
  of_string value = Raise e -> is_InvalidOperation e = true.
Proof.
  unfold of_string. cbv zeta.
  match goal with |- context [let '(_, _) := ?p in _] => destruct p as [sg body] end.
  destruct body as [|c r]; [intros [= <-]; reflexivity|].
  destruct (_ || _); [apply parse_number_raises | apply parse_special_raises].
Qed.


Lemma record_calculation_cases (value1 value2 : string) (num1 num2 : Decimal)
    (c : Command) (w : World) :
  (exists r, execute c num1 num2 = Ok r
             /\ record_calculation value1 value2 num1 num2 c w
                = add_calculation (mkCalculation num1 num2 c (Some r)) w)
  \/ (exists e, execute c num1 num2 = Raise e
                /\ record_calculation value1 value2 num1 num2 c w
                   = handle value1 value2 e w).
Proof.
  unfold record_calculation. rewrite operate_new.
  destruct (execute c num1 num2); eauto.
Qed.

Lemma dispatch_files (value1 value2 key : string) (reg : list (string * Command))
    (mp : bool) (worker : Worker) (w : World) :
  files (calculate_and_display_result value1 value2 key reg mp worker w) = files w.
Proof.
  unfold calculate_and_display_result.
  destruct (of_string value1) as [n1|e1]; [|apply handle_files].
  destruct (of_string value2) as [n2|e2]; [|apply handle_files].
  destruct (dict_lookup key reg) as [cmd|]; [|reflexivity].
  assert (Hrec : forall line,
             files (record_calculation value1 value2 n1 n2 cmd (print line w)) = files w).
  { intros line.
    destruct (record_calculation_cases value1 value2 n1 n2 cmd (print line w))
      as [(r & _ & ->) | (e & _ & ->)]; [reflexivity | rewrite handle_files; reflexivity]. }
  destruct mp.
  - destruct (run_process _ _ _); apply Hrec.
  - destruct (execute cmd n1 n2); [apply Hrec | apply handle_files].
Qed.


Lemma dispatch_appends_cases (value1 value2 key : string)
    (reg : list (string * Command)) (mp : bool) (worker : Worker) (w : World) :
  let w' := calculate_and_display_result value1 value2 key reg mp worker w in
  dataframe w' = dataframe w
  \/ exists c n1 n2 res,
       dict_lookup key reg = Some c
       /\ of_string value1 = Ok n1
       /\ of_string value2 = Ok n2
       /\ execute c n1 n2 = Ok res
       /\ dataframe w'
          = concat_record (dataframe w)
              [("operation", CStr (operation_name c)); ("num1", CDec n1);
               ("num2", CDec n2); ("result", CDec res)].
Proof.
  cbv zeta. unfold calculate_and_display_result.
  destruct (of_string value1) as [n1|e1]; [|left; apply handle_dataframe].
  destruct (of_string value2) as [n2|e2]; [|left; apply handle_dataframe].
  destruct (dict_lookup key reg) as [cmd|]; [|left; reflexivity].
  assert (Hrec : forall line,
             dataframe (record_calculation value1 value2 n1 n2 cmd (print line w))
             = dataframe w
             \/ exists c n1' n2' res,
                  Some cmd = Some c /\ Ok n1 = Ok n1' /\ Ok n2 = Ok n2'
                  /\ execute c n1' n2' = Ok res
                  /\ dataframe (record_calculation value1 value2 n1 n2 cmd (print line w))
                     = concat_record (dataframe w)
                         [("operation", CStr (operation_name c)); ("num1", CDec n1');
                          ("num2", CDec n2'); ("result", CDec res)]).
  { intros line. rewrite record_calculation_dataframe.
    destruct (execute cmd n1 n2) as [r|e] eqn:Hex; [|left; reflexivity].
    right. exists cmd, n1, n2, r. repeat split. exact Hex. }
  destruct mp.
  - destruct (run_process _ _ _); apply Hrec.
  - destruct (execute cmd n1 n2) as [r|e]; [apply Hrec | left; apply handle_dataframe].
Qed.

Lemma truthful_concat (df : DataFrame) (c : Command) (n1 n2 res : Decimal) :
  truthful_history df ->
  execute c n1 n2 = Ok res ->
  truthful_history
    (concat_record df [("operation", CStr (operation_name c)); ("num1", CDec n1);
                       ("num2", CDec n2); ("result", CDec res)]).
Proof.
  intros [Hcols Hrows] Hex. rewrite concat_record_history by exact Hcols.
  split; [reflexivity|]. cbn [rows]. apply Forall_app. split; [exact Hrows|].
  constructor; [|constructor]. exists c, n1, n2, res. split; [exact Hex | reflexivity].
Qed.

Lemma dispatch_keeps_truthful (value1 value2 key : string)
    (reg : list (string * Command)) (mp : bool) (worker : Worker) (w : World) :
  truthful_history (dataframe w) ->
  truthful_history
    (dataframe (calculate_and_display_result value1 value2 key reg mp worker w)).
Proof.
  intros Hinv.
  destruct (dispatch_appends_cases value1 value2 key reg mp worker w)
    as [-> | (c & n1 & n2 & res & _ & _ & _ & Hex & ->)]; [exact Hinv|].
  apply truthful_concat; assumption.
Qed.

Lemma delete_keeps_truthful (index : Z) (w : World) :
  truthful_history (dataframe w) -> truthful_history (dataframe (delete_history index w)).
Proof.
  intros [Hcols Hrows]. unfold delete_history, delete_record.
  destruct (_ && _); [|split; assumption].
  split; [exact Hcols|]. cbn [dataframe print set_dataframe drop_row rows].
  apply Forall_delete, Hrows.
Qed.

Lemma clear_keeps_truthful (w : World) :
  truthful_history (dataframe w) -> truthful_history (dataframe (clear_history w)).
Proof. intros [Hcols _]. split; [exact Hcols | constructor]. Qed.

(** X6.  A dispatch that changes the history appends the record of a
    calculation that succeeded, and shows what it records: the operation is
    the one registered under the key, the operands are the decimals the two
    texts denote, the result is what the operation returns on them, and
    the one line printed shows that result (in isolated mode with a worker
    that left no value, the failure line is printed instead). *)
Theorem dispatch_appends_truthfully (value1 value2 key : string)
    (reg : list (string * Command)) (mp : bool) (worker : Worker) (w : World) :
  let w' := calculate_and_display_result value1 value2 key reg mp worker w in
  dataframe w' = dataframe w
  \/ exists c n1 n2 res,
       dict_lookup key reg = Some c
       /\ of_string value1 = Ok n1
       /\ of_string value2 = Ok n2
       /\ execute c n1 n2 = Ok res
       /\ dataframe w'
          = concat_record (dataframe w)
              [("operation", CStr (operation_name c)); ("num1", CDec n1);
               ("num2", CDec n2); ("result", CDec res)]
       /\ stdout w'
          = (stdout w
             ++ [if mp then
                   match worker with
                   | RunsToEnd =>
                       "The result of " +:+ value1 +:+ " " +:+ key +:+ " " +:+ value2
                       +:+ " (multiprocessing) is " +:+ to_string res
                   | Terminated => "Error: Multiprocessing computation failed."
                   end
                 else
                   "The result of " +:+ value1 +:+ " " +:+ key +:+ " " +:+ value2
                   +:+ " is " +:+ to_string res])%list.
Proof.
  cbv zeta. unfold calculate_and_display_result.
  destruct (of_string value1) as [n1|e1]; [|left; apply handle_dataframe].
  destruct (of_string value2) as [n2|e2]; [|left; apply handle_dataframe].
  destruct (dict_lookup key reg) as [cmd|]; [|left; reflexivity].
  destruct (execute cmd n1 n2) as [r|e] eqn:Hex.
  - right. exists cmd, n1, n2, r. do 4 (split; [reflexivity || exact Hex|]).
    assert (Hrec : forall line,
               record_calculation value1 value2 n1 n2 cmd (print line w)
               = add_calculation (mkCalculation n1 n2 cmd (Some r)) (print line w)).
    { intros line.
      destruct (record_calculation_cases value1 value2 n1 n2 cmd (print line w))
        as [(r' & Hr & ->) | (e & He & _)]; congruence. }
    destruct mp.
    + destruct worker; cbn [run_process]; unfold execute_multiprocessing, bind;
        rewrite ?Hex; cbn [app]; rewrite Hrec; split; reflexivity.
    + rewrite Hrec. split; reflexivity.
  - left. destruct mp.
    + assert (Hq : run_process worker (execute_multiprocessing cmd n1 n2) [] = []).
      { destruct worker; cbn [run_process]; [|reflexivity].
        unfold execute_multiprocessing, bind. rewrite Hex. reflexivity. }
      rewrite Hq, record_calculation_dataframe, Hex. reflexivity.
    + apply handle_dataframe.
Qed.

Lemma filter_history (name : string) (w : World) :
  columns (dataframe w) = history_columns ->
  filter_with_operation name w
  = Ok (mkDataFrame history_columns (List.filter (operation_is name) (rows (dataframe w)))).
Proof.
  intros Hcols. unfold filter_with_operation, filter_by_operation, select_eq.
  rewrite Hcols. reflexivity.
Qed.

(** X8.  On a history with its four columns a dispatch through the loaded
    registry changes the filter view of its own operation only: the view for
    the dispatched name gains exactly the records the dispatch appended, at
    the end, and the view for any other name has the same rows as before. *)
Theorem filter_after_dispatch (plugins_dir : option (list string))
    (value1 value2 key name : string) (mp : bool) (worker : Worker) (w : World) :
  columns (dataframe w) = history_columns ->
  let w' := calculate_and_display_result value1 value2 key (load_plugins plugins_dir)
              mp worker w in
  exists view view',
    filter_with_operation name w = Ok view
    /\ filter_with_operation name w' = Ok view'
    /\ columns view' = columns view
    /\ rows view'
       = (rows view
          ++ if String.eqb key name
             then drop (length (rows (dataframe w))) (rows (dataframe w'))
             else [])%list.
Proof.
  intros Hcols w'.
  destruct (dispatch_appends_cases value1 value2 key (load_plugins plugins_dir)
              mp worker w) as [Hsame | (c & n1 & n2 & res & Hreg & _ & _ & _ & Hnew)];
    fold w' in Hsame || fold w' in Hnew.
  - do 2 eexists. rewrite !filter_history by (rewrite ?Hsame; exact Hcols).
    split; [reflexivity|]. split; [reflexivity|]. split; [reflexivity|].
    cbn [rows]. rewrite Hsame, drop_all.
    destruct (String.eqb key name); rewrite app_nil_r; reflexivity.
  - rewrite concat_record_history in Hnew by exact Hcols.
    apply load_plugins_keyed in Hreg.
    do 2 eexists. rewrite !filter_history by (rewrite ?Hnew; first [exact Hcols | reflexivity]).
    split; [reflexivity|]. split; [reflexivity|]. split; [reflexivity|].
    cbn [rows]. rewrite Hnew. cbn [rows].
    rewrite List.filter_app, drop_app_length. f_equal.
    cbn [List.filter]. unfold operation_is at 1. cbn [lookup list_lookup].
    rewrite Hreg. destruct (String.eqb key name); reflexivity.
Qed.

Lemma filter_after_dispatch_witness :
  let w := initial_world ∅ in
  let w' := calculate_and_display_result "2" "3" "add"
              (load_plugins (Some ["add_command.py"])) false RunsToEnd w in
  exists view view',
    filter_with_operation "add" w = Ok view
    /\ filter_with_operation "add" w' = Ok view'
    /\ columns view' = columns view
    /\ rows view'
       = (rows view
          ++ if String.eqb "add" "add"
             then drop (length (rows (dataframe w))) (rows (dataframe w'))
             else [])%list.
Proof.
  apply (filter_after_dispatch (Some ["add_command.py"]) "2" "3" "add" "add" false
           RunsToEnd (initial_world ∅)).
  reflexivity.
Defined.

(** X7.  On a history with its four columns, deleting the index [len] of
    the history before a dispatch that recorded gives back the frame as it
    was before the dispatch. *)
Theorem delete_undoes_dispatch (value1 value2 key : string)
    (reg : list (string * Command)) (mp : bool) (worker : Worker) (w : World) :
  columns (dataframe w) = history_columns ->
  let w' := calculate_and_display_result value1 value2 key reg mp worker w in
  len (dataframe w') = len (dataframe w) + 1 ->
  dataframe (delete_history (len (dataframe w)) w') = dataframe w.
Proof.
  intros Hcols w' Hlen.
  destruct (dispatch_appends_cases value1 value2 key reg mp worker w)
    as [Hsame | (c & n1 & n2 & res & _ & _ & _ & _ & Hnew)];
    fold w' in Hsame || fold w' in Hnew.
  - rewrite Hsame in Hlen. lia.
  - unfold delete_history, delete_record. rewrite Hlen.
    replace ((0 <=? len (dataframe w)) && (len (dataframe w) <? len (dataframe w) + 1))
      with true
      by (symmetry; apply andb_true_iff; split; [apply Z.leb_le | apply Z.ltb_lt];
          unfold len; lia).
    cbn [dataframe print set_dataframe]. rewrite Hnew.
    rewrite concat_record_history by exact Hcols.
    unfold drop_row, len. cbn [columns rows]. rewrite Nat2Z.id.
    replace (delete (length (rows (dataframe w))) (rows (dataframe w) ++ [_]))%list
      with (rows (dataframe w)).
    + rewrite <- Hcols. destruct (dataframe w); reflexivity.
    + rewrite delete_take_drop, take_app_length, drop_app_ge by lia.
      replace (S _ - _)%nat with 1%nat by lia. cbn. rewrite app_nil_r. reflexivity.
Qed.

Lemma delete_undoes_dispatch_witness :
  let w := initial_world ∅ in
  let w' := calculate_and_display_result "2" "3" "add" [("add", AddCommand)] false
              RunsToEnd w in
  dataframe (delete_history (len (dataframe w)) w') = dataframe w.
Proof.
  apply (delete_undoes_dispatch "2" "3" "add" [("add", AddCommand)] false RunsToEnd
           (initial_world ∅)); reflexivity.
Defined.

(** ** The plugin loader *)

Lemma length_append (s t : string) :
  String.length (s +:+ t) = (String.length s + String.length t)%nat.
Proof. rewrite !length_chars, chars_append. apply length_app. Qed.

Lemma substring_whole (s : string) : substring 0 (String.length s) s = s.
Proof. induction s as [|c s IH]; simpl; [reflexivity | f_equal; exact IH]. Qed.

Lemma substring_append_left (s t : string) :
  substring 0 (String.length s) (s +:+ t) = s.
Proof.
  induction s as [|c s IH]; simpl.
  - destruct t; reflexivity.
  - f_equal. exact IH.
Qed.

Lemma substring_append_right (s t : string) :
  substring (String.length s) (String.length t) (s +:+ t) = t.
Proof.
  induction s as [|c s IH]; simpl; [apply substring_whole | exact IH].
Qed.

Lemma substring_split (s : string) (k : nat) :
  (k <= String.length s)%nat ->
  substring 0 k s +:+ substring k (String.length s - k) s = s.
Proof.
  revert k. induction s as [|c s IH]; intros k Hk.
  - destruct k; reflexivity.
  - destruct k as [|k].
    + change (substring 0 (String.length (String c s) - 0) (String c s) = String c s).
      rewrite Nat.sub_0_r. apply substring_whole.
    + simpl in *. rewrite append_String. f_equal. apply IH. lia.
Qed.

Lemma drop_last_append (s t : string) :
  drop_last (String.length t) (s +:+ t) = s.
Proof.
  unfold drop_last. rewrite length_append.
  replace (String.length s + String.length t - String.length t)%nat
    with (String.length s) by lia.
  apply substring_append_left.
Qed.

Lemma endswith_append (s t : string) : endswith (s +:+ t) t = true.
Proof.
  unfold endswith. rewrite length_append.
  replace (String.length s + String.length t - String.length t)%nat
    with (String.length s) by lia.
  rewrite substring_append_right, String.eqb_refl.
  apply andb_true_intro. split; [apply Nat.leb_le; lia | reflexivity].
Qed.

Lemma endswith_split (s t : string) :
  endswith s t = true -> s = drop_last (String.length t) s +:+ t.
Proof.
  unfold endswith, drop_last. intros H.
  apply andb_true_iff in H as [Hlen Heq].
  apply Nat.leb_le in Hlen. apply String.eqb_eq in Heq.
  rewrite <- (substring_split s (String.length s - String.length t)) at 1 by lia.
  replace (String.length s - (String.length s - String.length t))%nat
    with (String.length t) by lia.
  rewrite Heq. reflexivity.
Qed.

Lemma append_inj_l (s s' t : string) : s +:+ t = s' +:+ t -> s = s'.
Proof.
  intros H. rewrite <- (drop_last_append s t), <- (drop_last_append s' t), H.
  reflexivity.
Qed.

Lemma append_assoc (s t u : string) : (s +:+ t) +:+ u = s +:+ (t +:+ u).
Proof.
  induction s as [|c s IH]; [reflexivity|].
  rewrite !append_String, IH. reflexivity.
Qed.

Lemma eqb_append_r (s s' t : string) :
  String.eqb (s +:+ t) (s' +:+ t) = String.eqb s s'.
Proof.
  destruct (String.eqb_spec s s') as [->|Hne].
  - apply String.eqb_refl.
  - apply String.eqb_neq. intros H. apply Hne, (append_inj_l _ _ _ H).
Qed.

Lemma eqb_append_l (p s s' : string) :
  String.eqb (p +:+ s) (p +:+ s') = String.eqb s s'.
Proof.
  induction p as [|c p IH]; [reflexivity|].
  rewrite !append_String. cbn [String.eqb]. rewrite Ascii.eqb_refl. exact IH.
Qed.

Lemma module_name_eqb (key stem : string) :
  String.eqb ("calculator.plugins." +:+ (key +:+ "_command"))
             ("calculator.plugins." +:+ (stem +:+ "_command"))
  = String.eqb key stem.
Proof. rewrite eqb_append_l. apply eqb_append_r. Qed.

(** What the loader finds for a file stem: the import and the attribute
    lookup together amount to a lookup among the repository's plugins. *)
Lemma import_plugin (stem : string) :
  match import_module ("calculator.plugins." +:+ (stem +:+ "_command")) with
  | Some module => getattr module (capitalize stem +:+ "Command")
  | None => None
  end = dict_lookup stem repository_plugins.
Proof.
  unfold import_module, plugin_modules, repository_plugins.
  cbn [dict_lookup].
  change "calculator.plugins.add_command"
    with ("calculator.plugins." +:+ ("add" +:+ "_command")).
  change "calculator.plugins.subtract_command"
    with ("calculator.plugins." +:+ ("subtract" +:+ "_command")).
  change "calculator.plugins.multiply_command"
    with ("calculator.plugins." +:+ ("multiply" +:+ "_command")).
  change "calculator.plugins.square_command"
    with ("calculator.plugins." +:+ ("square" +:+ "_command")).
  change "calculator.plugins.mean_command"
    with ("calculator.plugins." +:+ ("mean" +:+ "_command")).
  change "calculator.plugins.median_command"
    with ("calculator.plugins." +:+ ("median" +:+ "_command")).
  rewrite !module_name_eqb.
  repeat (match goal with
          | |- context [String.eqb ?k stem] =>
              destruct (String.eqb_spec k stem) as [<-|_]; [reflexivity|]
          end).
  reflexivity.
Qed.

(** One turn of the loader, read as a registry update. *)
Lemma load_plugin_step (cmds : list (string * Command)) (filename : string) :
  load_plugin cmds filename =
  if endswith filename "_command.py" then
    match dict_lookup (drop_last 11 filename) repository_plugins with
    | Some cls => dict_set (drop_last 11 filename) cls cmds
    | None => cmds
    end
  else cmds.
Proof.
  unfold load_plugin.
  destruct (endswith filename "_command.py") eqn:He; [|reflexivity].
  apply endswith_split in He. cbn [String.length] in He.
  set (stem := drop_last 11 filename) in *.
  assert (Hm : drop_last 3 filename = stem +:+ "_command").
  { rewrite He. change "_command.py" with ("_command" +:+ ".py").
    rewrite <- append_assoc. apply (drop_last_append _ ".py"). }
  rewrite Hm.
  replace (drop_last 8 (stem +:+ "_command")) with stem
    by (symmetry; apply (drop_last_append stem "_command")).
  rewrite <- import_plugin.
  destruct (import_module _); [|reflexivity].
  destruct (getattr _ _); reflexivity.
Qed.

Lemma plugin_file_eqb (key filename : string) :
  String.eqb (key +:+ "_command.py") filename
  = endswith filename "_command.py" && String.eqb (drop_last 11 filename) key.
Proof.
  destruct (String.eqb_spec (key +:+ "_command.py") filename) as [<-|Hne].
  - rewrite endswith_append.
    replace (drop_last 11 (key +:+ "_command.py")) with key
      by (symmetry; apply (drop_last_append key "_command.py")).
    rewrite String.eqb_refl. reflexivity.
  - destruct (endswith filename "_command.py") eqn:He; [|reflexivity].
    destruct (String.eqb_spec (drop_last 11 filename) key) as [Hk|_]; [|reflexivity].
    exfalso. apply Hne. apply endswith_split in He.
    cbn [String.length] in He. rewrite He, Hk. reflexivity.
Qed.

Lemma fold_load_plugin_lookup (listing : list string) :
  forall (cmds : list (string * Command)) (key : string),
    dict_lookup key (fold_left load_plugin listing cmds)
    = if existsb (String.eqb (key +:+ "_command.py")) listing then
        match dict_lookup key repository_plugins with
        | Some c => Some c
        | None => dict_lookup key cmds
        end
      else dict_lookup key cmds.
Proof.
  induction listing as [|f fs IH]; intros cmds key; [reflexivity|].
  cbn [fold_left existsb]. rewrite IH, plugin_file_eqb, load_plugin_step.
  destruct (endswith f "_command.py"); cbn [andb orb]; [|reflexivity].
  destruct (String.eqb_spec (drop_last 11 f) key) as [->|Hne]; cbn [orb].
  - destruct (dict_lookup key repository_plugins) as [c|] eqn:Hc.
    + rewrite dict_lookup_set, String.eqb_refl.
      destruct (existsb _ fs); reflexivity.
    + destruct (existsb _ fs); reflexivity.
  - destruct (dict_lookup (drop_last 11 f) repository_plugins) as [c|]; [|reflexivity].
    rewrite dict_lookup_set.
    destruct (String.eqb_spec (drop_last 11 f) key) as [?|_]; [contradiction|].
    reflexivity.
Qed.

Lemma dict_set_keys {V : Type} (k : string) (v : V) (d : list (string * V)) :
  map fst (dict_set k v d)
  = if existsb (String.eqb k) (map fst d) then map fst d
    else (map fst d ++ [k])%list.
Proof.
  induction d as [|[k0 v0] d IH]; [reflexivity|].
  cbn [dict_set map fst existsb].
  rewrite (String.eqb_sym k k0).
  destruct (String.eqb_spec k0 k) as [->|Hne]; cbn [orb map fst].
  - reflexivity.
  - rewrite IH. destruct (existsb _ _); reflexivity.
Qed.

Lemma dict_set_NoDup {V : Type} (k : string) (v : V) (d : list (string * V)) :
  NoDup (map fst d) -> NoDup (map fst (dict_set k v d)).
Proof.
  intros Hd. rewrite dict_set_keys.
  destruct (existsb _ _) eqn:He; [exact Hd|].
  apply NoDup_app. split; [exact Hd|]. split.
  - intros x Hx Hk. apply list_elem_of_singleton in Hk as ->.
    assert (existsb (String.eqb k) (map fst d) = true); [|congruence].
    apply existsb_exists. exists k. split; [|apply String.eqb_refl].
    apply list_elem_of_In, Hx.
  - apply NoDup_singleton.
Qed.

Lemma fold_load_plugin_NoDup (listing : list string) :
  forall cmds : list (string * Command),
    NoDup (map fst cmds) -> NoDup (map fst (fold_left load_plugin listing cmds)).
Proof.
  induction listing as [|f fs IH]; intros cmds Hd; [exact Hd|].
  cbn [fold_left]. apply IH. rewrite load_plugin_step.
  destruct (endswith f "_command.py"); [|exact Hd].
  destruct (dict_lookup _ repository_plugins); [|exact Hd].
  apply dict_set_NoDup, Hd.
Qed.

(** X9.  Whatever the directory lists, the registry maps a key to a
    command exactly when the file [<key>_command.py] is listed and the
    repository has a plugin of that key; other files are skipped, and a file
    listed twice gives one entry. *)
Theorem load_plugins_registry (listing : list string) :
  (forall (key : string) (c : Command),
     dict_lookup key (load_plugins (Some listing)) = Some c
     <-> In (key +:+ "_command.py") listing
         /\ dict_lookup key repository_plugins = Some c)
  /\ NoDup (map fst (load_plugins (Some listing))).
Proof.
  split.
  - intros key c. unfold load_plugins. rewrite fold_load_plugin_lookup.
    cbn [dict_lookup].
    destruct (existsb _ listing) eqn:He.
    + apply existsb_exists in He as [f [Hin Hf]].
      apply String.eqb_eq in Hf as <-.
      destruct (dict_lookup key repository_plugins); split;
        try (intros [_ ?]); try intros ?; try split; congruence || assumption.
    + split; [discriminate|]. intros [Hin _].
      assert (existsb (String.eqb (key +:+ "_command.py")) listing = true);
        [|congruence].
      apply existsb_exists. exists (key +:+ "_command.py").
      split; [exact Hin | apply String.eqb_refl].
  - apply fold_load_plugin_NoDup. apply NoDup_nil_2.
Qed.

(** ** The interactive loop *)

Section ReplFacts.
Variable frame_repr : DataFrame -> string.
Variable commands : list (string * Command).
Variable disk : Disk.

Lemma print_menu_frame (w : World) :
  dataframe (print_menu commands w) = dataframe w
  /\ files (print_menu commands w) = files w.
Proof.
  unfold print_menu.
  assert (H : forall l w0,
             dataframe (fold_left (fun w1 (kc : string * Command) =>
                                     print ("- " +:+ fst kc) w1) l w0) = dataframe w0
             /\ files (fold_left (fun w1 (kc : string * Command) =>
                                    print ("- " +:+ fst kc) w1) l w0) = files w0).
  { induction l as [|kc l IH]; intros w0; simpl; [auto|].
    destruct (IH (print ("- " +:+ fst kc) w0)) as [-> ->]. auto. }
  destruct (H commands (print "Available Commands:" w)) as [-> ->]. auto.
Qed.

(** Printing a frame changes neither the history nor a file, whether it
    raises or not. *)
Lemma print_frame_state (df : DataFrame) (w : World) :
  match print_frame frame_repr df w with
  | Continue w' | Break w' | Abort _ w' =>
      dataframe w' = dataframe w /\ files w' = files w
  | TurnUnmodelled => False
  end.
Proof. unfold print_frame. destruct (has_snan _); split; reflexivity. Qed.

(** A save, whether it returns or raises, leaves the history and the
    output as they were, and every file but its own. *)
Lemma save_history_state (filepath : string) (w : World) :
  match save_history disk filepath w with
  | Done w' | Failed _ w' =>
      dataframe w' = dataframe w /\ stdout w' = stdout w
      /\ forall other, other <> filepath -> files w' !! other = files w !! other
  end.
Proof.
  unfold save_history, save_to_file.
  destruct (disk filepath); [auto|].
  destruct (has_snan _); cbn [dataframe stdout files];
    (split; [reflexivity|]; split; [reflexivity|]);
    intros other Hne; apply lookup_insert_ne; congruence.
Qed.

(** One turn that is no load keeps a truthful history truthful. *)
Lemma repl_turn_truthful (worker : Worker) (user_input : string) (w : World) :
  startswith user_input "load_history" = false ->
  truthful_history (dataframe w) ->
  match repl_turn frame_repr commands disk worker user_input w with
  | Continue w' | Break w' | Abort _ w' => truthful_history (dataframe w')
  | TurnUnmodelled => False
  end.
Proof.
  intros Hload Hinv. unfold repl_turn. rewrite Hload.
  assert (Hprint : forall df,
             match print_frame frame_repr df w with
             | Continue w' | Break w' | Abort _ w' => truthful_history (dataframe w')
             | TurnUnmodelled => False
             end).
  { intros df. pose proof (print_frame_state df w) as Hp.
    destruct (print_frame frame_repr df w); try exact Hp;
      destruct Hp as [-> _]; exact Hinv. }
  destruct (String.eqb user_input "exit"); [exact Hinv|].
  destruct (String.eqb user_input "menu").
  { destruct (print_menu_frame w) as [-> _]. exact Hinv. }
  destruct (String.eqb user_input "history");
    [destruct (df_empty _); [exact Hinv | apply Hprint]|].
  destruct (String.eqb user_input "clear_history").
  { apply (clear_keeps_truthful w Hinv). }
  destruct (startswith user_input "save_history").
  { destruct (str_split_maxsplit_1 user_input) as [|x [|y [|z l]]]; try exact Hinv.
    pose proof (save_history_state y w) as Hs.
    destruct (save_history disk y w); destruct Hs as (Hd & _);
      cbn [print dataframe]; rewrite Hd; exact Hinv. }
  destruct (String.eqb user_input "latest"); [exact Hinv|].
  destruct (startswith user_input "delete_history").
  { destruct (str_split_maxsplit_1 user_input) as [|x [|y [|z l]]]; try exact Hinv.
    destruct (int_of_string y); [|exact Hinv].
    apply delete_keeps_truthful, Hinv. }
  destruct (startswith user_input "filter_with_operation").
  { destruct (str_split_maxsplit_1 user_input) as [|x [|y [|z l]]]; try exact Hinv.
    destruct (filter_with_operation y w); [|exact Hinv].
    destruct (df_empty _); [exact Hinv | apply Hprint]. }
  destruct (str_split user_input) as [|c [|n1 [|n2 [|f [|g rest]]]]]; try exact Hinv.
  - destruct (dict_lookup c commands); [|exact Hinv].
    apply dispatch_keeps_truthful, Hinv.
  - destruct (dict_lookup c commands); [|exact Hinv].
    apply dispatch_keeps_truthful, Hinv.
Qed.

(** One turn that is no save leaves the files alone. *)
Lemma repl_turn_files (worker : Worker) (user_input : string) (w : World) :
  startswith user_input "save_history" = false ->
  match repl_turn frame_repr commands disk worker user_input w with
  | Continue w' | Break w' | Abort _ w' => files w' = files w
  | TurnUnmodelled => True
  end.
Proof.
  intros Hsave. unfold repl_turn. rewrite Hsave.
  assert (Hprint : forall df,
             match print_frame frame_repr df w with
             | Continue w' | Break w' | Abort _ w' => files w' = files w
             | TurnUnmodelled => True
             end).
  { intros df. pose proof (print_frame_state df w) as Hp.
    destruct (print_frame frame_repr df w); try exact I; apply Hp. }
  destruct (String.eqb user_input "exit"); [reflexivity|].
  destruct (String.eqb user_input "menu").
  { apply print_menu_frame. }
  destruct (String.eqb user_input "history");
    [destruct (df_empty _); [reflexivity | apply Hprint]|].
  destruct (String.eqb user_input "clear_history"); [reflexivity|].
  destruct (startswith user_input "load_history").
  { destruct (str_split_maxsplit_1 user_input) as [|x [|y [|z l]]]; try reflexivity.
    unfold repl_load_history, load_history, load_from_file.
    destruct (files w !! y); [|reflexivity].
    destruct (read_csv _); reflexivity. }
  destruct (String.eqb user_input "latest"); [reflexivity|].
  destruct (startswith user_input "delete_history").
  { destruct (str_split_maxsplit_1 user_input) as [|x [|y [|z l]]]; try reflexivity.
    destruct (int_of_string y); [|reflexivity].
    unfold delete_history, delete_record. destruct (_ && _); reflexivity. }
  destruct (startswith user_input "filter_with_operation").
  { destruct (str_split_maxsplit_1 user_input) as [|x [|y [|z l]]]; try reflexivity.
    destruct (filter_with_operation y w); [|reflexivity].
    destruct (df_empty _); [reflexivity | apply Hprint]. }
  destruct (str_split user_input) as [|c [|n1 [|n2 [|f [|g rest]]]]]; try reflexivity.
  - destruct (dict_lookup c commands); [|reflexivity].
    apply dispatch_files.
  - destruct (dict_lookup c commands); [|reflexivity].
    apply dispatch_files.
Qed.

(** A safe line on a truthful history is answered and the loop goes on. *)
Lemma repl_turn_safe (worker : Worker) (user_input : string) (w : World) :
  safe_line user_input ->
  truthful_history (dataframe w) ->
  exists w', repl_turn frame_repr commands disk worker user_input w = Continue w'
             \/ repl_turn frame_repr commands disk worker user_input w = Break w'.
Proof.
  intros (Hlatest & Hhistory & Hsave & Hload & Hfilter) Hinv.
  unfold repl_turn. rewrite Hsave, Hload, Hfilter.
  destruct (String.eqb user_input "exit"); [eauto|].
  destruct (String.eqb user_input "menu"); [eauto|].
  destruct (String.eqb_spec user_input "history") as [?|_]; [contradiction|].
  destruct (String.eqb user_input "clear_history"); [eauto|].
  destruct (String.eqb_spec user_input "latest") as [?|_]; [contradiction|].
  destruct (startswith user_input "delete_history").
  { destruct (str_split_maxsplit_1 user_input) as [|x [|y [|z l]]]; eauto.
    destruct (int_of_string y); eauto. }
  destruct (str_split user_input) as [|c [|n1 [|n2 [|f [|g rest]]]]]; eauto.
  - destruct (dict_lookup c commands); eauto.
  - destruct (dict_lookup c commands); eauto.
Qed.

Lemma repl_loop_truthful (fate : nat -> Worker) (inputs : list string) :
  Forall (fun l => startswith l "load_history" = false) inputs ->
  forall (n : nat) (w : World),
    truthful_history (dataframe w) ->
    match repl_loop frame_repr commands disk fate n inputs w with
    | Finished w' | Crashed _ w' => truthful_history (dataframe w')
    | RunUnmodelled => False
    end.
Proof.
  induction 1 as [|l ls Hl _ IH]; intros n w Hinv; simpl; [exact Hinv|].
  pose proof (repl_turn_truthful (fate n) l w Hl Hinv) as Ht.
  destruct (repl_turn frame_repr commands disk (fate n) l w); try exact Ht.
  apply IH, Ht.
Qed.

Lemma repl_loop_files (fate : nat -> Worker) (inputs : list string) :
  Forall (fun l => startswith l "save_history" = false) inputs ->
  forall (n : nat) (w : World),
    match repl_loop frame_repr commands disk fate n inputs w with
    | Finished w' | Crashed _ w' => files w' = files w
    | RunUnmodelled => True
    end.
Proof.
  induction 1 as [|l ls Hl _ IH]; intros n w; simpl; [reflexivity|].
  pose proof (repl_turn_files (fate n) l w Hl) as Ht.
  destruct (repl_turn frame_repr commands disk (fate n) l w) as [w1|w1|e w1|];
    try exact Ht.
  specialize (IH (S n) w1).
  destruct (repl_loop frame_repr commands disk fate (S n) ls w1); try exact I;
    rewrite IH; exact Ht.
Qed.

(** The loop stops reading at the first [exit]. *)
Lemma repl_loop_exit (fate : nat -> Worker) (before after : list string) :
  forall (n : nat) (w : World),
    repl_loop frame_repr commands disk fate n (before ++ "exit" :: after)%list w
    = repl_loop frame_repr commands disk fate n (before ++ ["exit"])%list w.
Proof.
  induction before as [|l ls IH]; intros n w.
  - cbn [app repl_loop]. unfold repl_turn. cbn [String.eqb Ascii.eqb Bool.eqb].
    reflexivity.
  - cbn [app repl_loop].
    destruct (repl_turn frame_repr commands disk (fate n) l w); try reflexivity.
    apply IH.
Qed.

Lemma repl_loop_finishes (fate : nat -> Worker) (before after : list string) :
  Forall safe_line before ->
  forall (n : nat) (w : World),
    truthful_history (dataframe w) ->
    exists w', repl_loop frame_repr commands disk fate n
                 (before ++ "exit" :: after)%list w
               = Finished w'.
Proof.
  induction 1 as [|l ls Hsafe _ IH]; intros n w Hinv.
  - cbn [app repl_loop]. unfold repl_turn. cbn [String.eqb Ascii.eqb Bool.eqb].
    eexists. reflexivity.
  - cbn [app repl_loop].
    destruct Hsafe as (Hlatest & Hhistory & Hsave & Hload & Hfilter).
    pose proof (repl_turn_truthful (fate n) l w Hload Hinv) as Ht.
    destruct (repl_turn_safe (fate n) l w) as [w1 [Hturn|Hturn]];
      [repeat split; assumption | exact Hinv | |]; rewrite Hturn in *.
    + apply IH, Ht.
    + eexists. reflexivity.
Qed.

End ReplFacts.

Lemma initial_truthful (fs : gmap string string) :
  truthful_history (dataframe (initial_world fs)).
Proof. split; [reflexivity | constructor]. Qed.

(** X12.  In a session started on an empty history in which no line
    starts with [load_history], the history keeps its four columns and every
    record holds an operation name, two operands and the result that
    operation has on them; such a session never leaves the model. *)
Theorem session_history_truthful (frame_repr : DataFrame -> string)
    (argv : list string) (plugins_dir : option (list string)) (disk : Disk)
    (fate : nat -> Worker) (inputs : list string) (fs : gmap string string) :
  Forall (fun l => startswith l "load_history" = false) inputs ->
  match main frame_repr argv plugins_dir disk fate inputs (initial_world fs) with
  | Finished w' | Crashed _ w' => truthful_history (dataframe w')
  | RunUnmodelled => False
  end.
Proof.
  intros Hin. unfold main.
  pose proof (initial_truthful fs) as H0.
  destruct argv as [|a0 [|a1 [|a2 [|a3 [|a4 [|a5 rest]]]]]]; try exact H0.
  - destruct (String.eqb a1 "repl"); [|exact H0].
    unfold run_repl. apply repl_loop_truthful; assumption.
  - apply dispatch_keeps_truthful, H0.
  - apply dispatch_keeps_truthful, H0.
Qed.

Lemma session_history_truthful_witness :
  match main (fun _ => "") ["main.py"; "repl"] (Some ["add_command.py"; "square_command.py"])
          writable (fun _ => RunsToEnd)
          ["add 2 3"; "square 4 0 mp"; "delete_history 0"; "exit"]
          (initial_world ∅) with
  | Finished w' | Crashed _ w' => truthful_history (dataframe w')
  | RunUnmodelled => False
  end.
Proof.
  apply (session_history_truthful (fun _ => "") ["main.py"; "repl"]
           (Some ["add_command.py"; "square_command.py"]) writable (fun _ => RunsToEnd)
           ["add 2 3"; "square 4 0 mp"; "delete_history 0"; "exit"] ∅).
  repeat constructor.
Defined.

(** X13.  A session in which no line starts with [save_history] ends,
    normally or with an exception, with the files as they were. *)
Theorem session_files_untouched (frame_repr : DataFrame -> string)
    (argv : list string) (plugins_dir : option (list string)) (disk : Disk)
    (fate : nat -> Worker) (inputs : list string) (w : World) :
  Forall (fun l => startswith l "save_history" = false) inputs ->
  match main frame_repr argv plugins_dir disk fate inputs w with
  | Finished w' | Crashed _ w' => files w' = files w
  | RunUnmodelled => True
  end.
Proof.
  intros Hin. unfold main.
  destruct argv as [|a0 [|a1 [|a2 [|a3 [|a4 [|a5 rest]]]]]]; try reflexivity.
  - destruct (String.eqb a1 "repl"); [|reflexivity].
    unfold run_repl.
    match goal with |- context [repl_loop ?s ?c ?d ?f ?n ?i ?ww] =>
      pose proof (repl_loop_files s c d f i Hin n ww) as H;
      destruct (repl_loop s c d f n i ww); exact H
    end.
  - apply dispatch_files.
  - apply dispatch_files.
Qed.

Lemma session_files_untouched_witness :
  match main (fun _ => "") ["main.py"; "repl"] (Some ["add_command.py"])
          writable (fun _ => RunsToEnd) ["add 2 3"; "clear_history"; "latest"]
          (initial_world {["history.csv" := "operation,num1,num2,result"]}) with
  | Finished w' | Crashed _ w' =>
      files w' = files (initial_world {["history.csv" := "operation,num1,num2,result"]})
  | RunUnmodelled => True
  end.
Proof.
  apply (session_files_untouched (fun _ => "") ["main.py"; "repl"]
           (Some ["add_command.py"]) writable (fun _ => RunsToEnd)
           ["add 2 3"; "clear_history"; "latest"]
           (initial_world {["history.csv" := "operation,num1,num2,result"]})).
  repeat constructor.
Defined.






Lemma is_word_chars (s : string) :
  is_word s = true ->
  exists c cs, chars s = c :: cs /\ is_space c = false
               /\ forallb (fun c => negb (is_space c)) cs = true.
Proof.
  unfold is_word. destruct s as [|c s]; [discriminate|].
  simpl. intros H. apply andb_true_iff in H as [Hc Hcs].
  exists c, (chars s). repeat split; [|exact Hcs].
  destruct (is_space c); [discriminate | reflexivity].
Qed.

Lemma span_word_app (cs rest : list ascii) :
  forallb (fun c => negb (is_space c)) cs = true ->
  match rest with [] => True | c :: _ => is_space c = true end ->
  span_word (cs ++ rest) = (cs, rest).
Proof.
  intros Hcs Hrest. induction cs as [|c cs IH]; simpl.
  - destruct rest as [|c r]; [reflexivity|]. simpl. rewrite Hrest. reflexivity.
  - simpl in Hcs. apply andb_true_iff in Hcs as [Hc Hcs].
    destruct (is_space c); [discriminate|]. rewrite (IH Hcs). reflexivity.
Qed.

Lemma split_words_word (fuel : nat) (s : string) (rest : list ascii) :
  is_word s = true ->
  match rest with [] => True | c :: _ => is_space c = true end ->
  split_words (S fuel) (chars s ++ rest) = chars s :: split_words fuel rest.
Proof.
  intros Hw Hrest.
  destruct (is_word_chars s Hw) as (c & cs & Hs & Hc & Hcs).
  cbn [split_words]. rewrite Hs. cbn [app drop_while]. rewrite Hc.
  change (c :: (cs ++ rest)%list) with ((c :: cs) ++ rest)%list.
  rewrite span_word_app; [reflexivity| |exact Hrest].
  simpl. rewrite Hc, Hcs. reflexivity.
Qed.

Lemma split_words_space (fuel : nat) (rest : list ascii) :
  split_words (S fuel) (" "%char :: rest) = split_words (S fuel) rest.
Proof. reflexivity. Qed.

Lemma split_words_nil (fuel : nat) : split_words fuel [] = [].
Proof. destruct fuel; reflexivity. Qed.

Lemma str_split_three (x y z : string) :
  is_word x = true -> is_word y = true -> is_word z = true ->
  str_split (x +:+ " " +:+ y +:+ " " +:+ z) = [x; y; z].
Proof.
  intros Hx Hy Hz. unfold str_split.
  assert (Hlen : exists f, String.length (x +:+ " " +:+ y +:+ " " +:+ z) = S (S (S f))).
  { rewrite length_chars, !chars_append, !length_app. simpl.
    exists (length (chars x) + length (chars y) + length (chars z) - 1)%nat.
    destruct (is_word_chars x Hx) as (c & cs & -> & _). simpl. lia. }
  destruct Hlen as [f ->].
  rewrite !chars_append. change (chars " ") with [" "%char].
  rewrite split_words_word by (exact Hx || reflexivity).
  cbn [app]. rewrite split_words_space.
  rewrite split_words_word by (exact Hy || reflexivity).
  cbn [app]. rewrite split_words_space.
  rewrite <- (app_nil_r (chars z)).
  rewrite split_words_word by (exact Hz || exact I).
  rewrite split_words_nil. cbn [map]. rewrite !str_chars. reflexivity.
Qed.

Lemma join_cons2 (sep x y : string) (l : list string) :
  join sep (x :: y :: l) = x +:+ sep +:+ join sep (y :: l).
Proof. reflexivity. Qed.

Lemma split_words_join (ws : list string) :
  Forall (fun x => is_word x = true) ws ->
  forall fuel, (length ws <= fuel)%nat ->
  split_words fuel (chars (join " " ws)) = map chars ws.
Proof.
  induction 1 as [|x l Hx Hl IH]; intros fuel Hfuel.
  - apply split_words_nil.
  - destruct fuel as [|f]; [simpl in Hfuel; lia|].
    destruct l as [|y l].
    + change (join " " [x]) with x. cbn [map]. rewrite <- (app_nil_r (chars x)).
      rewrite split_words_word by (exact Hx || exact I).
      rewrite split_words_nil, app_nil_r. reflexivity.
    + rewrite join_cons2, !chars_append. change (chars " ") with [" "%char].
      rewrite split_words_word by (exact Hx || reflexivity).
      cbn [app map]. f_equal.
      destruct f as [|f]; [simpl in Hfuel; lia|].
      rewrite split_words_space. apply IH. simpl in *. lia.
Qed.

Lemma join_length (ws : list string) :
  Forall (fun x => is_word x = true) ws ->
  (length ws <= String.length (join " " ws))%nat.
Proof.
  induction 1 as [|x l Hx Hl IH]; [simpl; lia|].
  destruct (is_word_chars x Hx) as (c & cs & Hc & _).
  destruct l as [|y l].
  - change (join " " [x]) with x. rewrite length_chars, Hc. simpl. lia.
  - rewrite join_cons2, length_chars, !chars_append, !length_app.
    rewrite <- (length_chars (join " " (y :: l))), Hc. simpl in *. lia.
Qed.

(** Splitting at whitespace undoes joining words with single spaces. *)
Lemma str_split_join (ws : list string) :
  Forall (fun x => is_word x = true) ws ->
  str_split (join " " ws) = ws.
Proof.
  intros Hws. unfold str_split.
  rewrite split_words_join by (exact Hws || apply join_length, Hws).
  rewrite map_map. erewrite map_ext; [apply map_id|]. apply str_chars.
Qed.

Lemma operation_name_word (c : Command) : is_word (operation_name c) = true.
Proof. destruct c; reflexivity. Qed.

(** No operation name is taken for one of the other commands of the loop. *)
Lemma operation_line_not_reserved (c : Command) (rest : string) :
  let line := operation_name c +:+ " " +:+ rest in
  String.eqb line "exit" = false
  /\ String.eqb line "menu" = false
  /\ String.eqb line "history" = false
  /\ String.eqb line "clear_history" = false
  /\ startswith line "save_history" = false
  /\ startswith line "load_history" = false
  /\ String.eqb line "latest" = false
  /\ startswith line "delete_history" = false
  /\ startswith line "filter_with_operation" = false.
Proof.
  cbv zeta. unfold startswith.
  destruct c; cbn [operation_name]; rewrite !append_String; repeat split; reflexivity.
Qed.

(** X11.  For a registered operation and operands without whitespace, the
    line [<op> <a> <b>] (with or without a final [mp]) typed in the loop has
    the effect of the command line [main.py <a> <b> <op>] (with or without
    [mp]): the same output, files and history. *)
Theorem repl_line_is_one_shot (frame_repr : DataFrame -> string)
    (plugins_dir : option (list string)) (op a b : string) (c : Command)
    (mp : bool) (disk : Disk) (fate : nat -> Worker) (inputs : list string)
    (w : World) :
  dict_lookup op (load_plugins plugins_dir) = Some c ->
  is_word a = true ->
  is_word b = true ->
  let flag := if mp then ["mp"] else [] in
  let w' := calculate_and_display_result a b op (load_plugins plugins_dir) mp
              (fate O) w in
  repl_turn frame_repr (load_plugins plugins_dir) disk (fate O)
    (join " " ([op; a; b] ++ flag)) w = Continue w'
  /\ main frame_repr ("main.py" :: [a; b; op] ++ flag) plugins_dir disk fate inputs w
     = Finished w'.
Proof.
  intros Hreg Ha Hb. cbv zeta.
  pose proof (load_plugins_keyed plugins_dir op c Hreg) as Hname. subst op.
  split.
  - assert (Hline : exists rest, join " " ([operation_name c; a; b] ++ if mp then ["mp"] else [])
                                 = operation_name c +:+ " " +:+ rest).
    { eexists. cbn [app]. rewrite join_cons2. reflexivity. }
    destruct Hline as [rest Hline].
    destruct (operation_line_not_reserved c rest)
      as (H1 & H2 & H3 & H4 & H5 & H6 & H7 & H8 & H9).
    unfold repl_turn. rewrite Hline, H1, H2, H3, H4, H5, H6, H7, H8, H9.
    rewrite <- Hline. rewrite str_split_join.
    + destruct mp; cbn [app]; rewrite Hreg; reflexivity.
    + repeat constructor; try assumption; [apply operation_name_word|].
      destruct mp; repeat constructor.
  - unfold main. destruct mp; reflexivity.
Qed.

Lemma repl_line_is_one_shot_witness :
  let reg := load_plugins (Some ["multiply_command.py"]) in
  let w' := calculate_and_display_result "5" "6" "multiply" reg true RunsToEnd
              (initial_world ∅) in
  repl_turn (fun _ => "") reg writable RunsToEnd "multiply 5 6 mp" (initial_world ∅)
  = Continue w'
  /\ main (fun _ => "") ["main.py"; "5"; "6"; "multiply"; "mp"]
       (Some ["multiply_command.py"]) writable (fun _ => RunsToEnd) []
       (initial_world ∅)
     = Finished w'.
Proof.
  apply (repl_line_is_one_shot (fun _ => "") (Some ["multiply_command.py"])
           "multiply" "5" "6" MultiplyCommand true writable (fun _ => RunsToEnd) []
           (initial_world ∅)); reflexivity.
Defined.

(** X15.  A session started on an empty history that reaches the line
    [exit] through lines none of which is [latest] or [history] or starts
    with [save_history], [load_history] or [filter_with_operation] ends
    normally, whatever else is typed: no exception escapes, and what follows
    [exit] is never read. *)
Theorem session_ends_normally (frame_repr : DataFrame -> string)
    (argv : list string) (plugins_dir : option (list string)) (disk : Disk)
    (fate : nat -> Worker) (before after : list string) (fs : gmap string string) :
  Forall safe_line before ->
  exists w',
    main frame_repr argv plugins_dir disk fate (before ++ "exit" :: after)%list
      (initial_world fs) = Finished w'
    /\ main frame_repr argv plugins_dir disk fate (before ++ ["exit"])%list
         (initial_world fs) = Finished w'.
Proof.
  intros Hsafe. unfold main.
  destruct argv as [|a0 [|a1 [|a2 [|a3 [|a4 [|a5 rest]]]]]];
    try (eexists; split; reflexivity).
  destruct (String.eqb a1 "repl"); [|eexists; split; reflexivity].
  unfold run_repl.
  match goal with |- context [repl_loop _ _ _ _ ?n (before ++ "exit" :: after)%list ?ww] =>
    destruct (repl_loop_finishes frame_repr (load_plugins plugins_dir) disk fate
                before after Hsafe n ww) as (w' & Hrun);
      [apply initial_truthful|];
    pose proof (repl_loop_exit frame_repr (load_plugins plugins_dir) disk fate
                  before after n ww) as Heq
  end.
  exists w'. split; [exact Hrun | rewrite <- Heq; exact Hrun].
Qed.

Lemma session_ends_normally_witness :
  exists w',
    main (fun _ => "") ["main.py"; "repl"] (Some ["add_command.py"]) writable
      (fun _ => RunsToEnd)
      (["add 2 3"; "add 1 sNaN mp"; "bogus 1 2"; "delete_history x"; "menu"]
       ++ "exit" :: ["latest"])%list
      (initial_world ∅) = Finished w'
    /\ main (fun _ => "") ["main.py"; "repl"] (Some ["add_command.py"]) writable
         (fun _ => RunsToEnd)
         (["add 2 3"; "add 1 sNaN mp"; "bogus 1 2"; "delete_history x"; "menu"]
          ++ ["exit"])%list
         (initial_world ∅) = Finished w'.
Proof.
  apply (session_ends_normally (fun _ => "") ["main.py"; "repl"] (Some ["add_command.py"])
           writable (fun _ => RunsToEnd)
           ["add 2 3"; "add 1 sNaN mp"; "bogus 1 2"; "delete_history x"; "menu"]
           ["latest"] ∅).
  repeat (constructor; [repeat split; (discriminate || reflexivity)|]).
  constructor.
Defined.

(** ** Saving and loading *)











